(** * azurerm_mssql_job_credential: the resource's Create / Read / Update /
    Delete functions, embedded over an explicit world (the resource data
    [d], the remote service and the trace of calls issued), and the
    properties of the lifecycle contract proved about them. *)

From stdpp Require Import base option list strings gmap.
From Stdlib Require Import ZArith Ascii.

#[local] Open Scope Z_scope.
#[local] Open Scope string_scope.
#[local] Open Scope list_scope.

(** ** Resource identifiers (package [jobcredentials]) *)

Module JobAgentId.
Record t : Type := mk {
  SubscriptionId : string;
  ResourceGroupName : string;
  ServerName : string;
  JobAgentName : string;
}.

(** Modelled from the spec: the persisted identity format, "a
    slash-delimited resource path embedding subscription /
    resource-group / server / job-agent segments" (the formatter lives in
    the SDK package, outside the resource file). *)
Definition ID (id : t) : string :=
  "/subscriptions/" +:+ SubscriptionId id +:+
  "/resourceGroups/" +:+ ResourceGroupName id +:+
  "/providers/Microsoft.Sql/servers/" +:+ ServerName id +:+
  "/jobAgents/" +:+ JobAgentName id.

#[global] Instance eq_dec : EqDecision t.
Proof. solve_decision. Defined.
End JobAgentId.

Module CredentialId.
Record t : Type := mk {
  SubscriptionId : string;
  ResourceGroupName : string;
  ServerName : string;
  JobAgentName : string;
  CredentialName : string;
}.

(** Modelled from the spec: the persisted identity format, the job-agent
    path followed by the credential segment. *)
Definition ID (id : t) : string :=
  "/subscriptions/" +:+ SubscriptionId id +:+
  "/resourceGroups/" +:+ ResourceGroupName id +:+
  "/providers/Microsoft.Sql/servers/" +:+ ServerName id +:+
  "/jobAgents/" +:+ JobAgentName id +:+
  "/credentials/" +:+ CredentialName id.

#[global] Instance eq_dec : EqDecision t.
Proof. solve_decision. Defined.

#[global] Instance countable : Countable t.
Proof.
  refine (inj_countable'
    (fun id => (SubscriptionId id, ResourceGroupName id, ServerName id,
                JobAgentName id, CredentialName id))
    (fun '(a, b, c, e, f) => mk a b c e f) _).
  by intros [].
Defined.
End CredentialId.

(** [jobcredentials.NewCredentialID] and [jobcredentials.NewJobAgentID]. *)
Definition NewCredentialID (subscriptionId resourceGroupName serverName
    jobAgentName credentialName : string) : CredentialId.t :=
  CredentialId.mk subscriptionId resourceGroupName serverName jobAgentName
    credentialName.

Definition NewJobAgentID (subscriptionId resourceGroupName serverName
    jobAgentName : string) : JobAgentId.t :=
  JobAgentId.mk subscriptionId resourceGroupName serverName jobAgentName.

(** Go's [error] values.  [errors_New] stands for an error produced by a
    collaborator (identifier parser, REST client, write-only lookup);
    [fmt_Errorf] keeps the format string of the call site, the identifier
    it prints and the wrapped cause ([fmt_Errorf_id] where the identifier is
    the only argument); [ImportAsExistsError] is [tf.ImportAsExistsError]. *)
Inductive error : Type :=
  | errors_New (msg : string)
  | fmt_Errorf (format : string) (id : CredentialId.t) (err : error)
  | fmt_Errorf_id (format : string) (id : CredentialId.t)
  | ImportAsExistsError (resourceName : string) (id : string).

Inductive result (A : Type) : Type :=
  | Ok (a : A)
  | Err (e : error).
Arguments Ok {A} a.
Arguments Err {A} e.

(** ** The REST model (package [jobcredentials]) *)

Record JobCredentialProperties : Type := {
  Password : string;
  Username : string;
}.

Record JobCredential : Type := {
  Id : option string;
  Name : option string;
  Properties : option JobCredentialProperties;
  Type_ : option string;
}.

(** [*http.Response], of which the resource only inspects the status. *)
Record http_Response : Type := { StatusCode : Z }.

Record GetOperationResponse : Type := {
  HttpResponse : option http_Response;
  Model : option JobCredential;
}.

(** [response.WasNotFound]: a non-nil response whose status is 404. *)
Definition WasNotFound (resp : option http_Response) : bool :=
  match resp with
  | Some r => bool_decide (StatusCode r = 404)
  | None => false
  end.

(** ** Write-only values (package [cty]) *)

Module cty.
Inductive Type_ : Type := String | Number.

Inductive Value : Type :=
  | NullVal (ty : Type_)
  | StringVal (s : string)
  | NumberIntVal (n : Z).

Definition TypeOf (v : Value) : Type_ :=
  match v with
  | NullVal ty => ty
  | StringVal _ => String
  | NumberIntVal _ => Number
  end.

Definition IsNull (v : Value) : bool :=
  match v with NullVal _ => true | _ => false end.

(** [AsString] is only called on a non-null value of type [String]. *)
Definition AsString (v : Value) : string :=
  match v with StringVal s => s | _ => "" end.

#[global] Instance Type_eq_dec : EqDecision Type_.
Proof. solve_decision. Defined.
End cty.

(** ** The declared state (package [pluginsdk]) *)

Inductive Value : Type :=
  | VString (s : string)
  | VInt (n : Z).

(** [*pluginsdk.ResourceData]: the stored identifier, the field values
    [d.Get] answers with (configuration merged with state, overridden by
    [d.Set]), the fields the plan flags as changed, and the raw
    configuration the write-only values are read from. *)
Record ResourceData : Type := {
  rd_id : string;
  rd_fields : gmap string Value;
  rd_changed : gset string;
  rd_raw_config : gmap string cty.Value;
}.

(** [d.Get(key).(string)] and [d.Get(key).(int)]: the schema types every
    field, an unset field reads as the zero value of its type. *)
Definition d_GetString (d : ResourceData) (key : string) : string :=
  match rd_fields d !! key with
  | Some (VString s) => s
  | _ => ""
  end.

Definition d_GetInt (d : ResourceData) (key : string) : Z :=
  match rd_fields d !! key with
  | Some (VInt n) => n
  | _ => 0
  end.

Definition d_HasChange (d : ResourceData) (key : string) : bool :=
  bool_decide (key ∈ rd_changed d).

Definition d_Set (d : ResourceData) (key : string) (v : Value) : ResourceData :=
  {| rd_id := rd_id d;
     rd_fields := <[key := v]> (rd_fields d);
     rd_changed := rd_changed d;
     rd_raw_config := rd_raw_config d |}.

Definition d_SetId (d : ResourceData) (id : string) : ResourceData :=
  {| rd_id := id;
     rd_fields := rd_fields d;
     rd_changed := rd_changed d;
     rd_raw_config := rd_raw_config d |}.

(** Modelled from the spec: [GetWriteOnly(field) -> optional value] of the
    declared-state store ([pluginsdk.GetWriteOnly], outside the resource
    file): the attribute is read from the raw configuration; an attribute
    the configuration does not carry, or one of another type than asked
    for, is the error result the call sites check. *)
Definition pluginsdk_GetWriteOnly (d : ResourceData) (name : string)
    (attributeType : cty.Type_) : result cty.Value :=
  match rd_raw_config d !! name with
  | None => Err (errors_New "retrieving write-only attribute from config")
  | Some v =>
      if decide (cty.TypeOf v = attributeType) then Ok v
      else Err (errors_New "retrieving write-only attribute from config: value is not of the type asked for")
  end.

(** ** The collaborators the resource calls into *)

(** [JobCredentialsClient]: the three REST operations the resource uses,
    over a remote service in some state [R].  Each returns Go's [err]
    ([None] is [nil]) and the service's next state; [Get] also returns its
    response structure. *)
Class JobCredentialsClient (R : Type) : Type := {
  client_Get : CredentialId.t -> R -> GetOperationResponse * option error * R;
  client_CreateOrUpdate :
    CredentialId.t -> JobCredential -> R -> option error * R;
  client_Delete : CredentialId.t -> R -> option error * R;
}.

(** [jobcredentials.ParseJobAgentID] and [jobcredentials.ParseCredentialID]. *)
Class IdParser : Type := {
  ParseJobAgentID : string -> result JobAgentId.t;
  ParseCredentialID : string -> result CredentialId.t;
}.

(** ** The world and the monad of the resource functions *)

(** What an invocation can be observed to do besides changing [d]. *)
Inductive Event : Type :=
  | CallGet (id : CredentialId.t)
  | CallCreateOrUpdate (id : CredentialId.t) (input : JobCredential)
  | CallDelete (id : CredentialId.t)
  | ReadWriteOnly (name : string).

Record World (R : Type) : Type := mkWorld {
  data : ResourceData;
  remote : R;
  trace : list Event;
}.
Arguments mkWorld {R} data remote trace.
Arguments data {R} w.
Arguments remote {R} w.
Arguments trace {R} w.

(** A resource function mutates [d] in place and talks to the service
    whether or not it ends in an error: the world is threaded through both
    outcomes. *)
Definition M (R A : Type) : Type := World R -> result A * World R.

#[global] Instance M_ret {R} : MRet (M R) :=
  fun A (a : A) w => (Ok a, w).

#[global] Instance M_bind {R} : MBind (M R) :=
  fun A B (f : A -> M R B) (m : M R A) w =>
    match m w with
    | (Ok a, w') => f a w'
    | (Err e, w') => (Err e, w')
    end.

Section Operations.
Context {R : Type} `{!JobCredentialsClient R} `{!IdParser}.

(** [return err] with a non-nil [err]. *)
Definition fail {A} (e : error) : M R A := fun w => (Err e, w).

Definition lift {A} (r : result A) : M R A := fun w => (r, w).

Definition log (ev : Event) (w : World R) : World R :=
  mkWorld (data w) (remote w) (trace w ++ [ev]).

Definition with_data (f : ResourceData -> ResourceData) : M R unit :=
  fun w => (Ok tt, mkWorld (f (data w)) (remote w) (trace w)).

Definition Get_string (key : string) : M R string :=
  fun w => (Ok (d_GetString (data w) key), w).

Definition Get_int (key : string) : M R Z :=
  fun w => (Ok (d_GetInt (data w) key), w).

Definition HasChange (key : string) : M R bool :=
  fun w => (Ok (d_HasChange (data w) key), w).

Definition Id_ : M R string := fun w => (Ok (rd_id (data w)), w).

Definition Set_ (key : string) (v : Value) : M R unit :=
  with_data (fun d => d_Set d key v).

Definition SetId (id : string) : M R unit :=
  with_data (fun d => d_SetId d id).

Definition GetWriteOnly (name : string) (ty : cty.Type_) : M R cty.Value :=
  fun w => (pluginsdk_GetWriteOnly (data w) name ty, log (ReadWriteOnly name) w).

Definition Get (id : CredentialId.t) : M R (GetOperationResponse * option error) :=
  fun w =>
    let '(resp, err, r) := client_Get id (remote w) in
    (Ok (resp, err), mkWorld (data w) r (trace w ++ [CallGet id])).

Definition CreateOrUpdate (id : CredentialId.t) (input : JobCredential)
    : M R (option error) :=
  fun w =>
    let '(err, r) := client_CreateOrUpdate id input (remote w) in
    (Ok err, mkWorld (data w) r (trace w ++ [CallCreateOrUpdate id input])).

Definition Delete (id : CredentialId.t) : M R (option error) :=
  fun w =>
    let '(err, r) := client_Delete id (remote w) in
    (Ok err, mkWorld (data w) r (trace w ++ [CallDelete id])).

(** [if c { return e }] and [if err != nil { return wrap(err) }]. *)
Definition return_if (c : bool) (e : error) : M R unit :=
  if c then fail e else mret tt.

Definition check (err : option error) (wrap : error -> error) : M R unit :=
  match err with
  | Some err => fail (wrap err)
  | None => mret tt
  end.

(** [payload.Properties.Username = v] and [payload.Properties.Password = v]
    on the properties the payload points to. *)
Definition set_Username (props : JobCredentialProperties) (v : string)
    : JobCredentialProperties :=
  {| Password := Password props; Username := v |}.

Definition set_Password (props : JobCredentialProperties) (v : string)
    : JobCredentialProperties :=
  {| Password := v; Username := Username props |}.

Definition with_Properties (model : JobCredential)
    (props : JobCredentialProperties) : JobCredential :=
  {| Id := Id model; Name := Name model; Properties := Some props;
     Type_ := Type_ model |}.

(** ** The resource functions *)

Definition resourceMsSqlJobCredentialRead : M R unit :=
  rawId ← Id_;
  id ← lift (ParseCredentialID rawId);
  '(resp, err) ← Get id;
  match err with
  | Some err =>
      if WasNotFound (HttpResponse resp) then SetId ""
      else fail (fmt_Errorf "reading %s: %s" id err)
  | None =>
      Set_ "name" (VString (CredentialId.CredentialName id));;
      let jobAgentId :=
        NewJobAgentID (CredentialId.SubscriptionId id)
          (CredentialId.ResourceGroupName id) (CredentialId.ServerName id)
          (CredentialId.JobAgentName id) in
      Set_ "job_agent_id" (VString (JobAgentId.ID jobAgentId));;
      match Model resp with
      | Some model =>
          match Properties model with
          | Some props => Set_ "username" (VString (Username props))
          | None => mret tt
          end
      | None => mret tt
      end;;
      version ← Get_int "password_wo_version";
      Set_ "password_wo_version" (VInt version)
  end.

Definition resourceMsSqlJobCredentialCreate : M R unit :=
  rawJobAgentId ← Get_string "job_agent_id";
  jaId ← lift (ParseJobAgentID rawJobAgentId);
  name ← Get_string "name";
  let jobCredentialId :=
    NewCredentialID (JobAgentId.SubscriptionId jaId)
      (JobAgentId.ResourceGroupName jaId) (JobAgentId.ServerName jaId)
      (JobAgentId.JobAgentName jaId) name in
  '(existing, err) ← Get jobCredentialId;
  match err with
  | Some err =>
      return_if (negb (WasNotFound (HttpResponse existing)))
        (fmt_Errorf "checking for presence of existing %s: %+v"
           jobCredentialId err)
  | None => mret tt
  end;;
  return_if (negb (WasNotFound (HttpResponse existing)))
    (ImportAsExistsError "azurerm_mssql_job_credential"
       (CredentialId.ID jobCredentialId));;
  woPassword ← GetWriteOnly "password_wo" cty.String;
  password ← Get_string "password";
  let password :=
    if negb (cty.IsNull woPassword) then cty.AsString woPassword
    else password in
  username ← Get_string "username";
  let jobCredential :=
    {| Id := None;
       Name := Some (CredentialId.CredentialName jobCredentialId);
       Properties := Some {| Password := password; Username := username |};
       Type_ := None |} in
  err ← CreateOrUpdate jobCredentialId jobCredential;
  check err (fmt_Errorf "creating %s: %+v" jobCredentialId);;
  SetId (CredentialId.ID jobCredentialId);;
  resourceMsSqlJobCredentialRead.

Definition resourceMsSqlJobCredentialUpdate : M R unit :=
  rawJobAgentId ← Get_string "job_agent_id";
  jaId ← lift (ParseJobAgentID rawJobAgentId);
  name ← Get_string "name";
  let jobCredentialId :=
    NewCredentialID (JobAgentId.SubscriptionId jaId)
      (JobAgentId.ResourceGroupName jaId) (JobAgentId.ServerName jaId)
      (JobAgentId.JobAgentName jaId) name in
  '(existing, err) ← Get jobCredentialId;
  check err (fmt_Errorf "retrieving %s: %+v" jobCredentialId);;
  match Model existing with
  | None => fail (fmt_Errorf_id "retrieving %s: `model` was nil" jobCredentialId)
  | Some model =>
      match Properties model with
      | None =>
          fail (fmt_Errorf_id "retrieving %s: `model.Properties` was nil"
                  jobCredentialId)
      | Some props =>
          (* [d.Get] only reads: it is bound next to each [d.HasChange] *)
          changed ← HasChange "username";
          username ← Get_string "username";
          let props := if (changed : bool) then set_Username props username else props in
          changed ← HasChange "password";
          password ← Get_string "password";
          let props := if (changed : bool) then set_Password props password else props in
          changed ← HasChange "password_wo_version";
          props ←
            (if (changed : bool) then
               woPassword ← GetWriteOnly "password_wo" cty.String;
               mret (if negb (cty.IsNull woPassword)
                     then set_Password props (cty.AsString woPassword)
                     else props)
             else mret props);
          err ← CreateOrUpdate jobCredentialId (with_Properties model props);
          check err (fmt_Errorf "updating %s: %+v" jobCredentialId);;
          resourceMsSqlJobCredentialRead
      end
  end.

Definition resourceMsSqlJobCredentialDelete : M R unit :=
  rawId ← Id_;
  id ← lift (ParseCredentialID rawId);
  err ← Delete id;
  check err (fmt_Errorf "deleting %s: %+v" id).

End Operations.

(** ** A reference instance of the collaborators *)

(** Modelled from the spec: the identifier parsers of the SDK package
    (outside the resource file), for the "slash-delimited resource path
    embedding subscription / resource-group / server / job-agent /
    credential segments": the path is cut at every slash, the fixed
    segments must be the expected ones and the named ones non-empty. *)
Module resourceids.

(** [strings.Split(s, "/")]. *)
Fixpoint split (s : string) : list string :=
  match s with
  | EmptyString => [""]
  | String c s' =>
      if Ascii.eqb c "/"%char then "" :: split s'
      else match split s' with
           | seg :: rest => String c seg :: rest
           | [] => [String c ""]
           end
  end.

(** [strings.Join(segments, "/")]. *)
Fixpoint join (segments : list string) : string :=
  match segments with
  | [] => ""
  | [seg] => seg
  | seg :: rest => seg +:+ "/" +:+ join rest
  end.

Definition named (seg : string) : bool := negb (String.eqb seg "").

Definition ParseJobAgentID (input : string) : result JobAgentId.t :=
  match split input with
  | [e; k1; sub; k2; rg; k3; k4; k5; srv; k6; ja] =>
      if bool_decide ([e; k1; k2; k3; k4; k5; k6] =
           [""; "subscriptions"; "resourceGroups"; "providers";
            "Microsoft.Sql"; "servers"; "jobAgents"])
         && forallb named [sub; rg; srv; ja]
      then Ok (JobAgentId.mk sub rg srv ja)
      else Err (errors_New "parsing the job agent ID: unexpected segment")
  | _ => Err (errors_New "parsing the job agent ID: unexpected number of segments")
  end.

Definition ParseCredentialID (input : string) : result CredentialId.t :=
  match split input with
  | [e; k1; sub; k2; rg; k3; k4; k5; srv; k6; ja; k7; cred] =>
      if bool_decide ([e; k1; k2; k3; k4; k5; k6; k7] =
           [""; "subscriptions"; "resourceGroups"; "providers";
            "Microsoft.Sql"; "servers"; "jobAgents"; "credentials"])
         && forallb named [sub; rg; srv; ja; cred]
      then Ok (CredentialId.mk sub rg srv ja cred)
      else Err (errors_New "parsing the credential ID: unexpected segment")
  | _ => Err (errors_New "parsing the credential ID: unexpected number of segments")
  end.

Definition parser : IdParser :=
  Build_IdParser ParseJobAgentID ParseCredentialID.

End resourceids.

(** Modelled from the spec: the remote credential store behind the REST
    client, "idempotent upsert semantics on the remote store keyed by
    identifier" with [Get(id) -> (object|absent, err)]: the objects held,
    and a script of outages, one entry consumed per call ([Some status]
    makes that call fail with that HTTP status and change nothing). *)
Module memstore.

Record t : Type := mk {
  objects : gmap CredentialId.t JobCredential;
  outages : list (option Z);
}.

Definition next_outage (r : t) : option Z * t :=
  match outages r with
  | [] => (None, r)
  | o :: rest => (o, mk (objects r) rest)
  end.

Definition unexpected_status : error :=
  errors_New "unexpected status from the service".

Definition Get (id : CredentialId.t) (r : t)
    : GetOperationResponse * option error * t :=
  let '(outage, r) := next_outage r in
  match outage with
  | Some status =>
      ({| HttpResponse := Some {| StatusCode := status |}; Model := None |},
       Some unexpected_status, r)
  | None =>
      match objects r !! id with
      | Some obj =>
          ({| HttpResponse := Some {| StatusCode := 200 |}; Model := Some obj |},
           None, r)
      | None =>
          ({| HttpResponse := Some {| StatusCode := 404 |}; Model := None |},
           Some unexpected_status, r)
      end
  end.

Definition CreateOrUpdate (id : CredentialId.t) (input : JobCredential)
    (r : t) : option error * t :=
  let '(outage, r) := next_outage r in
  match outage with
  | Some status => (Some unexpected_status, r)
  | None => (None, mk (<[id := input]> (objects r)) (outages r))
  end.

Definition Delete (id : CredentialId.t) (r : t) : option error * t :=
  let '(outage, r) := next_outage r in
  match outage with
  | Some status => (Some unexpected_status, r)
  | None =>
      match objects r !! id with
      | Some _ => (None, mk (delete id (objects r)) (outages r))
      | None => (Some unexpected_status, r)
      end
  end.

Definition client : JobCredentialsClient t :=
  {| client_Get := Get;
     client_CreateOrUpdate := CreateOrUpdate;
     client_Delete := Delete |}.

End memstore.

(** ** Sample worlds over the reference instance *)

Module sample.

Definition Create : M memstore.t unit :=
  @resourceMsSqlJobCredentialCreate _ memstore.client resourceids.parser.
Definition Read : M memstore.t unit :=
  @resourceMsSqlJobCredentialRead _ memstore.client resourceids.parser.
Definition Update : M memstore.t unit :=
  @resourceMsSqlJobCredentialUpdate _ memstore.client resourceids.parser.
Definition Delete : M memstore.t unit :=
  @resourceMsSqlJobCredentialDelete _ memstore.client resourceids.parser.

Definition jobAgent : JobAgentId.t := JobAgentId.mk "0000" "rg1" "sql1" "agent1".

Definition credential : CredentialId.t :=
  CredentialId.mk "0000" "rg1" "sql1" "agent1" "cred1".

(** The credential as the service holds it before an update. *)
Definition held : JobCredential :=
  {| Id := Some (CredentialId.ID credential);
     Name := Some "cred1";
     Properties := Some {| Password := "old-secret"; Username := "sa" |};
     Type_ := Some "Microsoft.Sql/servers/jobAgents/credentials" |}.

Definition declared (id username password : string) (version : Z)
    (changed : gset string) (woPassword : cty.Value) : ResourceData :=
  {| rd_id := id;
     rd_fields :=
       {[ "job_agent_id" := VString (JobAgentId.ID jobAgent);
          "name" := VString "cred1";
          "username" := VString username;
          "password" := VString password;
          "password_wo_version" := VInt version ]};
     rd_changed := changed;
     rd_raw_config := {[ "password_wo" := woPassword ]} |}.

Definition absent : memstore.t := memstore.mk ∅ [].
Definition present : memstore.t := memstore.mk {[ credential := held ]} [].
Definition unavailable : memstore.t :=
  memstore.mk {[ credential := held ]} [Some 500].

(** A first apply with the plain password, and one with the write-only
    password. *)
Definition fresh : World memstore.t :=
  mkWorld (declared "" "sa" "pw" 0 ∅ (cty.NullVal cty.String)) absent [].
Definition fresh_wo : World memstore.t :=
  mkWorld (declared "" "sa" "" 1 ∅ (cty.StringVal "secret")) absent [].

(** A first apply for a credential the service already holds, and one
    while the service is failing. *)
Definition taken : World memstore.t :=
  mkWorld (declared "" "sa" "pw" 0 ∅ (cty.NullVal cty.String)) present [].
Definition outage : World memstore.t :=
  mkWorld (declared "" "sa" "pw" 0 ∅ (cty.NullVal cty.String)) unavailable [].


(** A resource whose remote object has disappeared. *)
Definition gone : World memstore.t :=
  mkWorld (declared (CredentialId.ID credential) "sa" "pw" 0 {[ "username" ]}
             (cty.NullVal cty.String)) absent [].

(** Updates: a new username only; a new version of the write-only
    password whose value is the one applied before; a switch from the
    write-only password back to the plain one. *)
Definition rename : World memstore.t :=
  mkWorld (declared (CredentialId.ID credential) "sa2" "" 1 {[ "username" ]}
             (cty.StringVal "old-secret")) present [].
Definition rotate : World memstore.t :=
  mkWorld (declared (CredentialId.ID credential) "sa" "" 2
             {[ "password_wo_version" ]} (cty.StringVal "old-secret"))
          present [].
Definition switch : World memstore.t :=
  mkWorld (declared (CredentialId.ID credential) "sa" "new-secret" 0
             {[ "password"; "password_wo_version" ]} (cty.NullVal cty.String))
          present [].

(** An update in which only the version marker is flagged and no
    write-only value is configured. *)
Definition unset : World memstore.t :=
  mkWorld (declared (CredentialId.ID credential) "sa" "" 0
             {[ "password_wo_version" ]} (cty.NullVal cty.String))
          present [].

(** What the reference store answers a Get with. *)
Definition found : GetOperationResponse :=
  {| HttpResponse := Some {| StatusCode := 200 |}; Model := Some held |}.
Definition not_found : GetOperationResponse :=
  {| HttpResponse := Some {| StatusCode := 404 |}; Model := None |}.
Definition server_error : GetOperationResponse :=
  {| HttpResponse := Some {| StatusCode := 500 |}; Model := None |}.

(** The store holding one object under the sample identifier. *)
Definition holding (input : JobCredential) : memstore.t :=
  memstore.mk {[ credential := input ]} [].

Definition stored (r : memstore.t) (id : CredentialId.t)
    : option JobCredential :=
  memstore.objects r !! id.

End sample.

(** ** Vocabulary of the statements *)

(** The four entry points registered by [resourceMsSqlJobCredential]. *)
Inductive Operation : Type := OpCreate | OpRead | OpUpdate | OpDelete.

Section Vocabulary.
Context {R : Type} `{!JobCredentialsClient R} `{!IdParser}.

Definition resourceMsSqlJobCredential (op : Operation) : M R unit :=
  match op with
  | OpCreate => resourceMsSqlJobCredentialCreate
  | OpRead => resourceMsSqlJobCredentialRead
  | OpUpdate => resourceMsSqlJobCredentialUpdate
  | OpDelete => resourceMsSqlJobCredentialDelete
  end.


(** The identifier Create and Update build from the parsed parent. *)
Definition jobCredentialId (jaId : JobAgentId.t) (d : ResourceData)
    : CredentialId.t :=
  NewCredentialID (JobAgentId.SubscriptionId jaId)
    (JobAgentId.ResourceGroupName jaId) (JobAgentId.ServerName jaId)
    (JobAgentId.JobAgentName jaId) (d_GetString d "name").
End Vocabulary.

(** The same declared state over another raw configuration. *)
Definition set_raw_config (cfg : gmap string cty.Value) (d : ResourceData)
    : ResourceData :=
  {| rd_id := rd_id d;
     rd_fields := rd_fields d;
     rd_changed := rd_changed d;
     rd_raw_config := cfg |}.

Definition with_raw_config {R} (cfg : gmap string cty.Value) (w : World R)
    : World R :=
  mkWorld (set_raw_config cfg (data w)) (remote w) (trace w).

(** The password a payload carries. *)
Definition sent_password (input : JobCredential) : option string :=
  Password <$> Properties input.

(** The payloads a trace sent to CreateOrUpdate, and the write-only
    attributes it consulted. *)
Definition sent (tr : list Event) : list (CredentialId.t * JobCredential) :=
  omap (fun ev => match ev with
                  | CallCreateOrUpdate id input => Some (id, input)
                  | _ => None
                  end) tr.

Definition consulted (tr : list Event) : list string :=
  omap (fun ev => match ev with ReadWriteOnly name => Some name | _ => None end) tr.

(** ** What the frame and round-trip properties ask of the collaborators *)

(** A client is a lawful store, for a view [stored] of the objects the
    service holds, when Get answers with the object held and changes
    nothing, and CreateOrUpdate replaces the object under its identifier
    when it succeeds and changes nothing when it fails. *)
Class LawfulStore {R : Type} `{!JobCredentialsClient R}
    (stored : R -> CredentialId.t -> option JobCredential) : Prop := {
  Get_reads id r resp err r' :
    client_Get id r = (resp, err, r') ->
    (forall id', stored r' id' = stored r id') /\
    (err = None -> Model resp = stored r id);
  CreateOrUpdate_upserts id input r r' :
    client_CreateOrUpdate id input r = (None, r') ->
    forall id', stored r' id' =
                if decide (id' = id) then Some input else stored r id';
  CreateOrUpdate_failed id input r e r' :
    client_CreateOrUpdate id input r = (Some e, r') ->
    forall id', stored r' id' = stored r id';
}.

(** The parser reads a formatted identifier back as the identifier it was
    formatted from, if at all, and rejects the empty string. *)
Class CanonicalIds `{!IdParser} : Prop := {
  parse_ID id id' :
    ParseCredentialID (CredentialId.ID id) = Ok id' -> id' = id;
  parse_empty id : ParseCredentialID "" <> Ok id;
}.


(** ** The schema of the resource *)

Module schema.

Inductive ValueType : Type := TypeString | TypeInt.

(** [pluginsdk.Schema], with the attributes the resource's schema uses;
    [ValidateFunc] is kept by name. *)
Record Schema : Type := mk {
  Type_ : ValueType;
  Required : bool;
  Optional : bool;
  ForceNew : bool;
  Sensitive : bool;
  WriteOnly : bool;
  ValidateFunc : option string;
  ConflictsWith : list string;
  ExactlyOneOf : list string;
  RequiredWith : list string;
}.

(** The [Schema] map of [resourceMsSqlJobCredential]. *)
Definition resourceMsSqlJobCredential : gmap string Schema :=
  {[ "name" :=
       {| Type_ := TypeString; Required := true; Optional := false;
          ForceNew := true; Sensitive := false; WriteOnly := false;
          ValidateFunc := None;
          ConflictsWith := []; ExactlyOneOf := []; RequiredWith := [] |};
     "job_agent_id" :=
       {| Type_ := TypeString; Required := true; Optional := false;
          ForceNew := true; Sensitive := false; WriteOnly := false;
          ValidateFunc := Some "validate.JobAgentID";
          ConflictsWith := []; ExactlyOneOf := []; RequiredWith := [] |};
     "username" :=
       {| Type_ := TypeString; Required := true; Optional := false;
          ForceNew := false; Sensitive := false; WriteOnly := false;
          ValidateFunc := None;
          ConflictsWith := []; ExactlyOneOf := []; RequiredWith := [] |};
     "password" :=
       {| Type_ := TypeString; Required := false; Optional := true;
          ForceNew := false; Sensitive := true; WriteOnly := false;
          ValidateFunc := None;
          ConflictsWith := ["password_wo"];
          ExactlyOneOf := ["password"; "password_wo"];
          RequiredWith := [] |};
     "password_wo" :=
       {| Type_ := TypeString; Required := false; Optional := true;
          ForceNew := false; Sensitive := false; WriteOnly := true;
          ValidateFunc := None;
          ConflictsWith := ["password"];
          ExactlyOneOf := ["password_wo"; "password"];
          RequiredWith := ["password_wo_version"] |};
     "password_wo_version" :=
       {| Type_ := TypeInt; Required := false; Optional := true;
          ForceNew := false; Sensitive := false; WriteOnly := false;
          ValidateFunc := None;
          ConflictsWith := []; ExactlyOneOf := [];
          RequiredWith := ["password_wo"] |} ]}.

(** Modelled from the spec: the "mutual-exclusion and co-requirement
    constraints enforced before this component runs" (the schema engine is
    outside the resource file), over the set of attributes a configuration
    sets.  An attribute with an [ExactlyOneOf] group needs exactly one
    attribute of the group set; a set attribute needs every attribute of
    its [RequiredWith] set and none of its [ConflictsWith]; an unset one
    must not be [Required]. *)
Definition is_set (cfg : gset string) (key : string) : bool :=
  bool_decide (key ∈ cfg).

Definition validate_field (cfg : gset string) (key : string) (s : Schema)
    : bool :=
  (match ExactlyOneOf s with
   | [] => true
   | group => bool_decide (length (List.filter (is_set cfg) group) = 1%nat)
   end)
  && (if is_set cfg key
      then forallb (is_set cfg) (RequiredWith s)
           && forallb (fun other => negb (is_set cfg other)) (ConflictsWith s)
      else negb (Required s)).

Definition validate (schema : gmap string Schema) (cfg : gset string) : bool :=
  bool_decide (map_Forall (fun key s => validate_field cfg key s = true) schema).

End schema.

(** ** Further vocabulary: the other calls of a trace, further worlds *)

(** The identifiers a trace fetched and the ones it asked to delete. *)
Definition fetched (tr : list Event) : list CredentialId.t :=
  omap (fun ev => match ev with CallGet id => Some id | _ => None end) tr.

Definition deleted (tr : list Event) : list CredentialId.t :=
  omap (fun ev => match ev with CallDelete id => Some id | _ => None end) tr.

Module scenario.

(** Updates: a new plain password; nothing flagged at all; a new version
    marker over a raw configuration whose [password_wo] is not a string. *)
Definition replace : World memstore.t :=
  mkWorld (sample.declared (CredentialId.ID sample.credential) "sa"
             "new-secret" 0 {[ "password" ]} (cty.NullVal cty.String))
          sample.present [].
Definition untouched : World memstore.t :=
  mkWorld (sample.declared (CredentialId.ID sample.credential) "sa"
             "pw" 0 ∅ (cty.NullVal cty.String))
          sample.present [].
Definition mistyped : World memstore.t :=
  mkWorld (sample.declared (CredentialId.ID sample.credential) "sa"
             "" 2 {[ "password_wo_version" ]} (cty.NumberIntVal 7))
          sample.present [].

(** A first apply over a raw configuration whose [password_wo] is not a
    string. *)
Definition mistyped_fresh : World memstore.t :=
  mkWorld (sample.declared "" "sa" "" 1 ∅ (cty.NumberIntVal 7))
          sample.absent [].

(** A first apply against a service that fails the fetch after the write,
    with a server error or with a not-found. *)
Definition failing_after_write : World memstore.t :=
  mkWorld (sample.declared "" "sa" "pw" 0 ∅ (cty.NullVal cty.String))
          (memstore.mk ∅ [None; None; Some 500]) [].
Definition vanishing_after_write : World memstore.t :=
  mkWorld (sample.declared "" "sa" "pw" 0 ∅ (cty.NullVal cty.String))
          (memstore.mk ∅ [None; None; Some 404]) [].

(** The payload a first apply with the plain password sends. *)
Definition created : JobCredential :=
  {| Id := None; Name := Some "cred1";
     Properties := Some {| Password := "pw"; Username := "sa" |};
     Type_ := None |}.

(** A configuration with the write-only password and its version. *)
Definition write_only_config : gset string :=
  {[ "name"; "job_agent_id"; "username"; "password_wo"; "password_wo_version" ]}.

End scenario.

(** ** Proof steps *)

(** Open the monadic operations, of every resource function or of every
    one but Read (where Read is the tail of Create and Update). *)
Ltac unfold_steps :=
  unfold mbind, M_bind, mret, M_ret, Get_string, Get_int, HasChange, Id_,
    Set_, SetId, with_data, GetWriteOnly, Get, CreateOrUpdate, Delete, lift,
    fail, return_if, check, log in *.

Ltac unfold_ops_but_Read :=
  unfold resourceMsSqlJobCredentialCreate, resourceMsSqlJobCredentialUpdate
    in *;
  unfold_steps.

Ltac unfold_ops :=
  unfold resourceMsSqlJobCredential, resourceMsSqlJobCredentialCreate,
    resourceMsSqlJobCredentialUpdate, resourceMsSqlJobCredentialDelete,
    resourceMsSqlJobCredentialRead in *;
  unfold_steps.

(** An operation that stops: the events it issued end the trace, and the
    counts asked of them are read off. *)
Ltac stops :=
  intros [= <- <-]; cbn;
  first [ exists []; split; [by rewrite app_nil_r |]
        | eexists; split; [rewrite <- ?app_assoc; reflexivity |] ];
  cbn; repeat split; (done || lia).

(** An operation that ends with Read after a payload was sent; [Htail] says
    what Read may add to the trace. *)
Ltac reads Htail :=
  let Hread := fresh "Hread" in
  intros Hread;
  eapply (Htail _ _ _ _
            (fun new => deleted new = [] /\ (length (sent new) <= 1)%nat /\
                        (length (fetched new) <= 2)%nat /\
                        (length (consulted new) <= 1)%nat /\
                        (sent new = [] -> _)));
  [exact Hread | cbn; rewrite <- ?app_assoc; reflexivity | ..];
  cbn; intros; unfold deleted, sent, fetched, consulted;
  rewrite ?omap_app; cbn; repeat split; (done || lia).

(** * Properties *)

Section Lifecycle.
Context {R : Type} `{!JobCredentialsClient R} `{!IdParser}.

Lemma sent_app (tr1 tr2 : list Event) : sent (tr1 ++ tr2) = sent tr1 ++ sent tr2.
Proof. apply omap_app. Qed.

Lemma consulted_app (tr1 tr2 : list Event) :
  consulted (tr1 ++ tr2) = consulted tr1 ++ consulted tr2.
Proof. apply omap_app. Qed.

(** What Read leaves alone: it sends no payload, consults no write-only
    attribute, and writes no other field than [name], [job_agent_id],
    [username] and [password_wo_version]. *)
Lemma Read_frame (w w' : World R) (res : result unit) :
  resourceMsSqlJobCredentialRead w = (res, w') ->
  sent (trace w') = sent (trace w) /\
  consulted (trace w') = consulted (trace w) /\
  rd_changed (data w') = rd_changed (data w) /\
  rd_raw_config (data w') = rd_raw_config (data w) /\
  forall key,
    key ∉ ["name"; "job_agent_id"; "username"; "password_wo_version"] ->
    rd_fields (data w') !! key = rd_fields (data w) !! key.
Proof.
  unfold_ops; cbn.
  destruct (ParseCredentialID _) as [id|e]; cbn; [| by intros [= <- <-]].
  destruct (client_Get id (remote w)) as [[resp [e|]] r]; cbn.
  - destruct (WasNotFound _); cbn; intros [= <- <-]; cbn;
      by rewrite sent_app, consulted_app, !app_nil_r.
  - destruct (Model resp) as [[? ? [props|] ?]|]; cbn; intros [= <- <-]; cbn.
    all: rewrite sent_app, consulted_app, !app_nil_r.
    all: repeat split; try done.
    all: intros key Hkey; rewrite !lookup_insert_ne; [done | ..].
    all: intros ?; subst key; apply Hkey; set_solver.
Qed.

Lemma Read_trace (w w' : World R) (res : result unit) :
  resourceMsSqlJobCredentialRead w = (res, w') ->
  exists rest, trace w' = trace w ++ rest.
Proof.
  unfold_ops; cbn.
  destruct (ParseCredentialID _) as [id|e]; cbn;
    [| intros [= <- <-]; exists []; by rewrite app_nil_r].
  destruct (client_Get id (remote w)) as [[resp [e|]] r]; cbn.
  - destruct (WasNotFound _); cbn; intros [= <- <-]; cbn; by eexists.
  - destruct (Model resp) as [[? ? [props|] ?]|]; cbn; intros [= <- <-]; cbn;
      by eexists.
Qed.

Lemma Read_raw_config (w w' : World R) (res : result unit)
    (cfg : gmap string cty.Value) :
  resourceMsSqlJobCredentialRead w = (res, w') ->
  resourceMsSqlJobCredentialRead (with_raw_config cfg w) =
    (res, with_raw_config cfg w').
Proof.
  unfold_ops; cbn.
  destruct (ParseCredentialID _) as [id|e]; cbn; [| by intros [= <- <-]].
  destruct (client_Get id (remote w)) as [[resp [e|]] r]; cbn.
  - by destruct (WasNotFound _); cbn; intros [= <- <-].
  - by destruct (Model resp) as [[? ? [props|] ?]|]; cbn; intros [= <- <-].
Qed.



(** C5: when Read's fetch fails, a not-found response clears the stored
    identifier, changes nothing else of the local state and returns no
    error; any other failure is returned as an error. *)
Theorem Read_fetch_failure (w : World R) (id : CredentialId.t)
    (resp : GetOperationResponse) (e : error) (r : R) :
  ParseCredentialID (rd_id (data w)) = Ok id ->
  client_Get id (remote w) = (resp, Some e, r) ->
  resourceMsSqlJobCredentialRead w =
    if WasNotFound (HttpResponse resp)
    then (Ok tt, mkWorld (d_SetId (data w) "") r (trace w ++ [CallGet id]))
    else (Err (fmt_Errorf "reading %s: %s" id e),
          mkWorld (data w) r (trace w ++ [CallGet id])).
Proof.
  intros Hp Hg. unfold_ops; cbn. rewrite Hp, Hg; cbn.
  by destruct (WasNotFound _).
Qed.

(** C6: whatever error the remote delete call returns, not-found included
    (the response is not even inspected), Delete returns it wrapped; Delete
    succeeds only when the remote call did. *)
Theorem Delete_failure_is_fatal (w : World R) (id : CredentialId.t) :
  ParseCredentialID (rd_id (data w)) = Ok id ->
  (forall e r, client_Delete id (remote w) = (Some e, r) ->
     resourceMsSqlJobCredentialDelete w =
       (Err (fmt_Errorf "deleting %s: %+v" id e),
        mkWorld (data w) r (trace w ++ [CallDelete id]))) /\
  (forall w', resourceMsSqlJobCredentialDelete w = (Ok tt, w') ->
     exists r, client_Delete id (remote w) = (None, r)).
Proof.
  intros Hp. split.
  - intros e r Hd. unfold_ops; cbn. by rewrite Hp, Hd.
  - intros w'. unfold_ops; cbn. rewrite Hp.
    destruct (client_Delete id (remote w)) as [[e|] r]; cbn; [done | eauto].
Qed.

(** C4: when Update's fetch of the remote state fails (for whatever reason,
    the object being absent included), or succeeds without a model or with
    a model without properties, Update returns an error and the only
    remote call issued is that fetch: CreateOrUpdate is not invoked. *)
Theorem Update_fetch_must_succeed (w : World R) (jaId : JobAgentId.t)
    (resp : GetOperationResponse) (err : option error) (r : R) :
  ParseJobAgentID (d_GetString (data w) "job_agent_id") = Ok jaId ->
  let id := jobCredentialId jaId (data w) in
  client_Get id (remote w) = (resp, err, r) ->
  is_Some err \/ Model resp = None \/
    (exists model, Model resp = Some model /\ Properties model = None) ->
  exists e,
    resourceMsSqlJobCredentialUpdate w =
      (Err e, mkWorld (data w) r (trace w ++ [CallGet id])) /\
    e = match err with
        | Some cause => fmt_Errorf "retrieving %s: %+v" id cause
        | None =>
            match Model resp with
            | None => fmt_Errorf_id "retrieving %s: `model` was nil" id
            | Some _ =>
                fmt_Errorf_id "retrieving %s: `model.Properties` was nil" id
            end
        end.
Proof.
  intros Hp id Hg Hbad. unfold_ops; cbn. rewrite Hp; cbn.
  fold (jobCredentialId jaId (data w)). fold id. rewrite Hg; cbn.
  destruct err as [cause|]; cbn; [by eauto |].
  destruct Hbad as [[? [=]] | [Hm | (model & Hm & Hprops)]]; rewrite Hm; cbn.
  - by eauto.
  - rewrite Hprops. by eauto.
Qed.

(** C3: once the parent identifier is parsed, Create looks the constructed
    identifier up.  A lookup that succeeds without a not-found response
    makes Create fail with the import-as-exists error, a lookup that fails
    without a not-found response makes it fail with that failure wrapped,
    and in both cases the lookup is the only remote call issued; a
    not-found response is no error, Create goes on to resolve the
    password. *)
Theorem Create_existence_check (w : World R) (jaId : JobAgentId.t)
    (existing : GetOperationResponse) (err : option error) (r : R) :
  ParseJobAgentID (d_GetString (data w) "job_agent_id") = Ok jaId ->
  let id := jobCredentialId jaId (data w) in
  client_Get id (remote w) = (existing, err, r) ->
  let looked_up := mkWorld (data w) r (trace w ++ [CallGet id]) in
  if WasNotFound (HttpResponse existing)
  then exists res w' rest,
         resourceMsSqlJobCredentialCreate w = (res, w') /\
         trace w' = trace looked_up ++ ReadWriteOnly "password_wo" :: rest
  else resourceMsSqlJobCredentialCreate w =
         (Err match err with
              | Some cause =>
                  fmt_Errorf "checking for presence of existing %s: %+v" id cause
              | None =>
                  ImportAsExistsError "azurerm_mssql_job_credential"
                    (CredentialId.ID id)
              end,
          looked_up).
Proof.
  intros Hp id Hg looked_up. unfold_ops_but_Read; cbn. rewrite Hp; cbn.
  fold (jobCredentialId jaId (data w)). fold id. rewrite Hg; cbn.
  destruct (WasNotFound _) eqn:Hnf; cbn; [| by destruct err].
  destruct err as [cause|]; cbn.
  all: destruct (pluginsdk_GetWriteOnly _ _ _) as [wo|e]; cbn;
    [| by eexists _, _, []].
  all: destruct (client_CreateOrUpdate _ _ _) as [[e|] r2]; cbn.
  1,3: eexists _, _, _; split; [done |]; by rewrite <- app_assoc.
  all: destruct (resourceMsSqlJobCredentialRead _) as [res w'] eqn:Hread.
  all: apply Read_trace in Hread as [rest Hrest]; cbn in Hrest.
  all: eexists _, _, _; split; [done |]; rewrite Hrest.
  all: by rewrite <- !app_assoc.
Qed.

(** C8: past the existence check, Create sends as password the plain
    [password] field when the write-only value is null and the write-only
    value otherwise; when the remote call succeeds it stores the
    constructed identifier as the resource's id and finishes with Read, and
    when it fails it returns that failure without storing the id. *)
Theorem Create_sends_effective_password (w : World R) (jaId : JobAgentId.t)
    (existing : GetOperationResponse) (err : option error) (r : R)
    (woPassword : cty.Value) (sendErr : option error) (r' : R) :
  ParseJobAgentID (d_GetString (data w) "job_agent_id") = Ok jaId ->
  let id := jobCredentialId jaId (data w) in
  client_Get id (remote w) = (existing, err, r) ->
  WasNotFound (HttpResponse existing) = true ->
  pluginsdk_GetWriteOnly (data w) "password_wo" cty.String = Ok woPassword ->
  let jobCredential :=
    {| Id := None;
       Name := Some (CredentialId.CredentialName id);
       Properties :=
         Some {| Password := if cty.IsNull woPassword
                             then d_GetString (data w) "password"
                             else cty.AsString woPassword;
                 Username := d_GetString (data w) "username" |};
       Type_ := None |} in
  client_CreateOrUpdate id jobCredential r = (sendErr, r') ->
  let issued :=
    trace w ++ [CallGet id; ReadWriteOnly "password_wo";
                CallCreateOrUpdate id jobCredential] in
  resourceMsSqlJobCredentialCreate w =
    match sendErr with
    | Some cause =>
        (Err (fmt_Errorf "creating %s: %+v" id cause),
         mkWorld (data w) r' issued)
    | None =>
        resourceMsSqlJobCredentialRead
          (mkWorld (d_SetId (data w) (CredentialId.ID id)) r' issued)
    end.
Proof.
  intros Hp id Hg Hnf Hwo jobCredential Hsend issued.
  unfold_ops_but_Read; cbn. rewrite Hp; cbn.
  fold (jobCredentialId jaId (data w)). fold id. rewrite Hg; cbn.
  assert (Hpayload :
    {| Id := None; Name := Some (d_GetString (data w) "name");
       Properties :=
         Some {| Password := if negb (cty.IsNull woPassword)
                             then cty.AsString woPassword
                             else d_GetString (data w) "password";
                 Username := d_GetString (data w) "username" |};
       Type_ := None |} = jobCredential).
  { unfold jobCredential. by destruct (cty.IsNull woPassword). }
  destruct err; cbn; rewrite Hnf; cbn; rewrite Hwo; cbn.
  all: rewrite Hpayload, Hsend; cbn.
  all: unfold issued; rewrite <- !app_assoc; cbn.
  all: by destruct sendErr.
Qed.

(** C1: in an Update where [password_wo_version] is flagged as changed and
    the write-only password is not null, at most one payload is sent to
    CreateOrUpdate and any payload sent carries the write-only value as its
    password, whatever that value is; exactly one is sent once the fetch of
    the remote state has succeeded with a model and its properties.  In an
    Update where [password_wo_version] is not flagged, no write-only
    attribute is consulted: the outcome is the same under any other raw
    configuration. *)
Theorem Update_write_only_channel (w w' : World R) (res : result unit) :
  resourceMsSqlJobCredentialUpdate w = (res, w') ->
  (d_HasChange (data w) "password_wo_version" = true ->
   forall woPassword,
     pluginsdk_GetWriteOnly (data w) "password_wo" cty.String = Ok woPassword ->
     cty.IsNull woPassword = false ->
     exists new,
       sent (trace w') = sent (trace w) ++ new /\
       (length new <= 1)%nat /\
       (forall id input, (id, input) ∈ new ->
          sent_password input = Some (cty.AsString woPassword)) /\
       (forall jaId resp r model props,
          ParseJobAgentID (d_GetString (data w) "job_agent_id") = Ok jaId ->
          client_Get (jobCredentialId jaId (data w)) (remote w) = (resp, None, r) ->
          Model resp = Some model ->
          Properties model = Some props ->
          length new = 1%nat)) /\
  (d_HasChange (data w) "password_wo_version" = false ->
   consulted (trace w') = consulted (trace w) /\
   forall cfg,
     resourceMsSqlJobCredentialUpdate (with_raw_config cfg w) =
       (res, with_raw_config cfg w')).
Proof.
  intros HU. split.
  - intros Hflag woPassword Hwo Hnn. revert HU. unfold_ops_but_Read; cbn.
    destruct (ParseJobAgentID _) as [jaId|e] eqn:Hp; cbn.
    2: { intros [= <- <-]. exists []. rewrite app_nil_r.
         repeat split; [cbn; lia | set_solver | done]. }
    fold (jobCredentialId jaId (data w)).
    destruct (client_Get _ (remote w)) as [[resp err] r] eqn:Hg; cbn.
    destruct err as [cause|]; cbn.
    { intros [= <- <-]; cbn. exists []. rewrite sent_app, !app_nil_r.
      repeat split; [cbn; lia | set_solver |].
      intros ? ? ? ? ? [= <-]. by rewrite Hg. }
    destruct (Model resp) as [model|] eqn:Hm; cbn.
    2: { intros [= <- <-]; cbn. exists []. rewrite sent_app, !app_nil_r.
         repeat split; [cbn; lia | set_solver |].
         intros ? ? ? ? ? [= <-]. rewrite Hg. by intros [= <- <-]; rewrite Hm. }
    destruct (Properties model) as [props|] eqn:Hprops; cbn.
    2: { intros [= <- <-]; cbn. exists []. rewrite sent_app, !app_nil_r.
         repeat split; [cbn; lia | set_solver |].
         intros ? ? ? ? ? [= <-]. rewrite Hg. intros [= <- <-]; rewrite Hm.
         intros [= <-]. by rewrite Hprops. }
    rewrite Hflag; cbn. rewrite Hwo, Hnn; cbn.
    match goal with
    | |- context [client_CreateOrUpdate ?i ?p ?s] =>
        set (payload := p);
        destruct (client_CreateOrUpdate i payload s) as [sendErr r2]
    end; cbn.
    assert (Hcarried : forall id input,
              (id, input) ∈ [(jobCredentialId jaId (data w), payload)] ->
              sent_password input = Some (cty.AsString woPassword)).
    { by intros id input [= -> ->]%list_elem_of_singleton. }
    destruct sendErr as [cause|]; cbn.
    + intros [= <- <-]; cbn. eexists [_].
      rewrite !sent_app, !app_nil_r; cbn. by repeat split.
    + intros (Hsent & _)%Read_frame; cbn in Hsent. eexists [_].
      rewrite Hsent, !sent_app, !app_nil_r; cbn. by repeat split.
  - intros Hflag. split.
    + revert HU. unfold_ops_but_Read; cbn.
      destruct (ParseJobAgentID _) as [jaId|e]; cbn; [| by intros [= <- <-]].
      destruct (client_Get _ (remote w)) as [[resp [cause|]] r]; cbn.
      { intros [= <- <-]; cbn. by rewrite consulted_app, app_nil_r. }
      destruct (Model resp) as [[? ? [props|] ?]|]; cbn.
      2,3: intros [= <- <-]; cbn; by rewrite consulted_app, app_nil_r.
      rewrite Hflag; cbn.
      destruct (client_CreateOrUpdate _ _ _) as [[cause|] r2]; cbn.
      * intros [= <- <-]; cbn. by rewrite !consulted_app, !app_nil_r.
      * intros (_ & -> & _)%Read_frame; cbn.
        by rewrite !consulted_app, !app_nil_r.
    + intros cfg. revert HU. unfold_ops_but_Read.
      unfold with_raw_config; cbn.
      change (d_GetString (set_raw_config cfg (data w)))
        with (d_GetString (data w)).
      destruct (ParseJobAgentID _) as [jaId|e]; cbn; [| by intros [= <- <-]].
      destruct (client_Get _ (remote w)) as [[resp [cause|]] r]; cbn;
        [by intros [= <- <-] |].
      destruct (Model resp) as [[? ? [props|] ?]|]; cbn.
      2,3: by intros [= <- <-].
      change (d_HasChange (set_raw_config cfg (data w)))
        with (d_HasChange (data w)).
      rewrite Hflag; cbn.
      destruct (client_CreateOrUpdate _ _ _) as [[cause|] r2]; cbn;
        [by intros [= <- <-] |].
      intros Hread. by apply (Read_raw_config _ _ _ cfg) in Hread.
Qed.

(** C10 (amended): in an Update where [password_wo_version] is flagged as
    changed and the write-only password is null, the null value raises no
    error and replaces nothing: once the fetch has succeeded, the payload
    is sent, and its password is the plain [password] value when
    [password] is flagged as changed and the fetched password otherwise. *)
Theorem Update_null_write_only (w : World R) (jaId : JobAgentId.t)
    (existing : GetOperationResponse) (r : R) (model : JobCredential)
    (props : JobCredentialProperties) (woPassword : cty.Value)
    (sendErr : option error) (r' : R) :
  ParseJobAgentID (d_GetString (data w) "job_agent_id") = Ok jaId ->
  let id := jobCredentialId jaId (data w) in
  client_Get id (remote w) = (existing, None, r) ->
  Model existing = Some model ->
  Properties model = Some props ->
  d_HasChange (data w) "password_wo_version" = true ->
  pluginsdk_GetWriteOnly (data w) "password_wo" cty.String = Ok woPassword ->
  cty.IsNull woPassword = true ->
  let payload :=
    with_Properties model
      {| Password := if d_HasChange (data w) "password"
                     then d_GetString (data w) "password"
                     else Password props;
         Username := if d_HasChange (data w) "username"
                     then d_GetString (data w) "username"
                     else Username props |} in
  client_CreateOrUpdate id payload r = (sendErr, r') ->
  let issued :=
    trace w ++ [CallGet id; ReadWriteOnly "password_wo";
                CallCreateOrUpdate id payload] in
  resourceMsSqlJobCredentialUpdate w =
    match sendErr with
    | Some cause =>
        (Err (fmt_Errorf "updating %s: %+v" id cause),
         mkWorld (data w) r' issued)
    | None => resourceMsSqlJobCredentialRead (mkWorld (data w) r' issued)
    end.
Proof.
  intros Hp id Hg Hm Hprops Hflag Hwo Hnull payload Hsend issued.
  unfold_ops_but_Read; cbn. rewrite Hp; cbn.
  fold (jobCredentialId jaId (data w)). fold id. rewrite Hg; cbn.
  rewrite Hm; cbn. rewrite Hprops; cbn. rewrite Hflag; cbn.
  rewrite Hwo; cbn. rewrite Hnull; cbn.
  match goal with
  | |- context [client_CreateOrUpdate id ?p r] =>
      replace p with payload
  end.
  2: { unfold payload, set_Password, set_Username. destruct props; cbn.
       by destruct (d_HasChange _ "password"), (d_HasChange _ "username"). }
  rewrite Hsend; cbn. unfold issued. rewrite <- !app_assoc; cbn.
  by destruct sendErr.
Qed.


End Lifecycle.

Section LawfulRemote.
Context {R : Type} `{!JobCredentialsClient R} `{!IdParser}.
Context (stored : R -> CredentialId.t -> option JobCredential).
Context `{!LawfulStore stored}.

(** Read changes nothing of what the service holds. *)
Lemma Read_stored (w w' : World R) (res : result unit) :
  resourceMsSqlJobCredentialRead w = (res, w') ->
  forall id, stored (remote w') id = stored (remote w) id.
Proof.
  unfold_ops; cbn.
  destruct (ParseCredentialID _) as [id|e]; cbn; [| by intros [= <- <-]].
  destruct (client_Get id (remote w)) as [[resp err] r] eqn:Hg; cbn.
  apply Get_reads in Hg as [Hsame _].
  destruct err as [e|]; cbn.
  - by destruct (WasNotFound _); cbn; intros [= <- <-].
  - by destruct (Model resp) as [[? ? [props|] ?]|]; cbn; intros [= <- <-].
Qed.



Section RoundTrip.
Context `{!CanonicalIds}.


End RoundTrip.

End LawfulRemote.

Section Frames.
Context {R : Type} `{!JobCredentialsClient R} `{!IdParser}.



End Frames.

(** * Further properties of the resource functions *)

Section Channels.
Context {R : Type} `{!JobCredentialsClient R} `{!IdParser}.

(** X1: an Update that flags [password] and not [password_wo_version]
    sends, once the fetch has succeeded, the fetched model with the plain
    [password] value as password (and the new [username] if that is
    flagged too), without consulting the write-only attribute; it returns
    the wrapped failure of that call, or else what Read returns. *)
Theorem Update_plain_password (w : World R) (jaId : JobAgentId.t)
    (existing : GetOperationResponse) (r : R) (model : JobCredential)
    (props : JobCredentialProperties) (sendErr : option error) (r' : R) :
  ParseJobAgentID (d_GetString (data w) "job_agent_id") = Ok jaId ->
  let id := jobCredentialId jaId (data w) in
  client_Get id (remote w) = (existing, None, r) ->
  Model existing = Some model ->
  Properties model = Some props ->
  d_HasChange (data w) "password" = true ->
  d_HasChange (data w) "password_wo_version" = false ->
  let payload :=
    with_Properties model
      {| Password := d_GetString (data w) "password";
         Username := if d_HasChange (data w) "username"
                     then d_GetString (data w) "username"
                     else Username props |} in
  client_CreateOrUpdate id payload r = (sendErr, r') ->
  let issued := trace w ++ [CallGet id; CallCreateOrUpdate id payload] in
  resourceMsSqlJobCredentialUpdate w =
    match sendErr with
    | Some cause =>
        (Err (fmt_Errorf "updating %s: %+v" id cause),
         mkWorld (data w) r' issued)
    | None => resourceMsSqlJobCredentialRead (mkWorld (data w) r' issued)
    end.
Proof.
  intros Hp id Hg Hm Hprops Hpw Hver payload Hsend issued.
  unfold_ops_but_Read; cbn. rewrite Hp; cbn.
  fold (jobCredentialId jaId (data w)). fold id. rewrite Hg; cbn.
  rewrite Hm; cbn. rewrite Hprops; cbn. rewrite Hpw, Hver; cbn.
  match goal with
  | |- context [client_CreateOrUpdate id ?p r] => replace p with payload
  end.
  2: { unfold payload, set_Password, set_Username. destruct props; cbn.
       by destruct (d_HasChange _ "username"). }
  rewrite Hsend; cbn. unfold issued. rewrite <- !app_assoc; cbn.
  by destruct sendErr.
Qed.

(** X2: an Update in which none of [username], [password] and
    [password_wo_version] is flagged sends back, once the fetch has
    succeeded, exactly the model it fetched. *)
Theorem Update_nothing_flagged (w : World R) (jaId : JobAgentId.t)
    (existing : GetOperationResponse) (r : R) (model : JobCredential)
    (props : JobCredentialProperties) (sendErr : option error) (r' : R) :
  ParseJobAgentID (d_GetString (data w) "job_agent_id") = Ok jaId ->
  let id := jobCredentialId jaId (data w) in
  client_Get id (remote w) = (existing, None, r) ->
  Model existing = Some model ->
  Properties model = Some props ->
  d_HasChange (data w) "username" = false ->
  d_HasChange (data w) "password" = false ->
  d_HasChange (data w) "password_wo_version" = false ->
  client_CreateOrUpdate id model r = (sendErr, r') ->
  let issued := trace w ++ [CallGet id; CallCreateOrUpdate id model] in
  resourceMsSqlJobCredentialUpdate w =
    match sendErr with
    | Some cause =>
        (Err (fmt_Errorf "updating %s: %+v" id cause),
         mkWorld (data w) r' issued)
    | None => resourceMsSqlJobCredentialRead (mkWorld (data w) r' issued)
    end.
Proof.
  intros Hp id Hg Hm Hprops Hun Hpw Hver Hsend issued.
  unfold_ops_but_Read; cbn. rewrite Hp; cbn.
  fold (jobCredentialId jaId (data w)). fold id. rewrite Hg; cbn.
  rewrite Hm; cbn. rewrite Hprops; cbn. rewrite Hun, Hpw, Hver; cbn.
  replace (with_Properties model props) with model
    by (destruct model; cbn in *; by subst).
  rewrite Hsend; cbn. unfold issued. rewrite <- !app_assoc; cbn.
  by destruct sendErr.
Qed.

(** X3: whatever is flagged, a payload an Update sends is the model its
    fetch returned as far as [Id], [Name] and [Type] go, and its username
    is the [username] value when [username] is flagged and the fetched
    username otherwise. *)
Theorem Update_payload_shape (w w' : World R) (res : result unit)
    (jaId : JobAgentId.t) (existing : GetOperationResponse)
    (err : option error) (r : R) :
  resourceMsSqlJobCredentialUpdate w = (res, w') ->
  ParseJobAgentID (d_GetString (data w) "job_agent_id") = Ok jaId ->
  client_Get (jobCredentialId jaId (data w)) (remote w) = (existing, err, r) ->
  exists new,
    sent (trace w') = sent (trace w) ++ new /\
    forall id input,
      (id, input) ∈ new ->
      id = jobCredentialId jaId (data w) /\
      exists model props sentProps,
        Model existing = Some model /\ Properties model = Some props /\
        Id input = Id model /\ Name input = Name model /\
        Type_ input = Type_ model /\
        Properties input = Some sentProps /\
        Username sentProps =
          if d_HasChange (data w) "username"
          then d_GetString (data w) "username"
          else Username props.
Proof.
  intros HU Hp Hg. revert HU. unfold_ops_but_Read; cbn. rewrite Hp; cbn.
  fold (jobCredentialId jaId (data w)). set (id := jobCredentialId _ _) in *.
  rewrite Hg; cbn.
  assert (Hnone : forall tr (P : CredentialId.t -> JobCredential -> Prop),
    exists new : list (CredentialId.t * JobCredential),
      sent (tr ++ [CallGet id]) = sent tr ++ new /\
      forall i input, (i, input) ∈ new -> P i input).
  { intros tr P. exists []. rewrite sent_app. split; [done | set_solver]. }
  destruct err as [cause|]; cbn; [intros [= <- <-]; by cbn |].
  destruct (Model existing) as [model|]; cbn; [| intros [= <- <-]; by cbn].
  destruct (Properties model) as [props|] eqn:Hprops; cbn;
    [| intros [= <- <-]; by cbn].
  assert (Hone : forall tr0 payload,
    sent tr0 = sent (trace w) ->
    (exists sentProps, payload = with_Properties model sentProps /\
       Username sentProps =
         if d_HasChange (data w) "username"
         then d_GetString (data w) "username" else Username props) ->
    exists new : list (CredentialId.t * JobCredential),
      sent (tr0 ++ [CallCreateOrUpdate id payload]) = sent (trace w) ++ new /\
      forall i input,
        (i, input) ∈ new ->
        i = id /\
        exists model0 props0 sentProps,
          Some model = Some model0 /\ Properties model0 = Some props0 /\
          Id input = Id model0 /\ Name input = Name model0 /\
          Type_ input = Type_ model0 /\
          Properties input = Some sentProps /\
          Username sentProps =
            if d_HasChange (data w) "username"
            then d_GetString (data w) "username" else Username props0).
  { intros tr0 payload Htr0 (sentProps & -> & Hname).
    exists [(id, with_Properties model sentProps)].
    rewrite sent_app, Htr0. split; [done |].
    intros i input [= -> ->]%list_elem_of_singleton. split; [done |].
    by eexists model, props, sentProps. }
  clear Hnone.
  destruct (d_HasChange (data w) "password_wo_version"); cbn.
  - destruct (pluginsdk_GetWriteOnly _ _ _) as [wo|e]; cbn.
    2: { intros [= <- <-]; cbn. exists [].
         rewrite !sent_app; cbn. rewrite !app_nil_r. split; [done | set_solver]. }
    match goal with
    | |- context [client_CreateOrUpdate id ?p r] => set (payload := p)
    end.
    assert (Hshape : exists sentProps, payload = with_Properties model sentProps /\
       Username sentProps =
         if d_HasChange (data w) "username"
         then d_GetString (data w) "username" else Username props).
    { eexists. split; [reflexivity |].
      by destruct (cty.IsNull wo), (d_HasChange _ "password"),
        (d_HasChange _ "username"). }
    destruct (Hone ((trace w ++ [CallGet id]) ++ [ReadWriteOnly "password_wo"])
                payload) as (new & Hnew & Hin); [| done |].
    { rewrite !sent_app; cbn. by rewrite !app_nil_r. }
    destruct (client_CreateOrUpdate id payload r) as [[cause|] r2]; cbn.
    + intros [= <- <-]; cbn. by exists new.
    + intros [-> _]%Read_frame; cbn. by exists new.
  - match goal with
    | |- context [client_CreateOrUpdate id ?p r] => set (payload := p)
    end.
    assert (Hshape : exists sentProps, payload = with_Properties model sentProps /\
       Username sentProps =
         if d_HasChange (data w) "username"
         then d_GetString (data w) "username" else Username props).
    { eexists. split; [reflexivity |].
      by destruct (d_HasChange _ "password"), (d_HasChange _ "username"). }
    destruct (Hone (trace w ++ [CallGet id]) payload)
      as (new & Hnew & Hin); [| done |].
    { rewrite !sent_app; cbn. by rewrite !app_nil_r. }
    destruct (client_CreateOrUpdate id payload r) as [[cause|] r2]; cbn.
    + intros [= <- <-]; cbn. by exists new.
    + intros [-> _]%Read_frame; cbn. by exists new.
Qed.

(** X4: when the write-only attribute cannot be retrieved, Create (past
    its existence check) and Update (past its fetch, with
    [password_wo_version] flagged) return that error as it is, with the
    lookup as the only remote call issued and [d] unchanged: nothing is
    sent to CreateOrUpdate. *)
Theorem write_only_failure_aborts (w : World R) (jaId : JobAgentId.t)
    (existing : GetOperationResponse) (err : option error) (r : R)
    (e : error) :
  ParseJobAgentID (d_GetString (data w) "job_agent_id") = Ok jaId ->
  let id := jobCredentialId jaId (data w) in
  client_Get id (remote w) = (existing, err, r) ->
  pluginsdk_GetWriteOnly (data w) "password_wo" cty.String = Err e ->
  let stopped :=
    mkWorld (data w) r (trace w ++ [CallGet id; ReadWriteOnly "password_wo"]) in
  (WasNotFound (HttpResponse existing) = true ->
   resourceMsSqlJobCredentialCreate w = (Err e, stopped)) /\
  (err = None ->
   (exists model props,
      Model existing = Some model /\ Properties model = Some props) ->
   d_HasChange (data w) "password_wo_version" = true ->
   resourceMsSqlJobCredentialUpdate w = (Err e, stopped)).
Proof.
  intros Hp id Hg Hwo stopped. split.
  - intros Hnf. unfold_ops_but_Read; cbn. rewrite Hp; cbn.
    fold (jobCredentialId jaId (data w)). fold id. rewrite Hg; cbn.
    destruct err; cbn; rewrite Hnf; cbn; rewrite Hwo; cbn.
    all: unfold stopped; by rewrite <- app_assoc.
  - intros -> (model & props & Hm & Hprops) Hver.
    unfold_ops_but_Read; cbn. rewrite Hp; cbn.
    fold (jobCredentialId jaId (data w)). fold id. rewrite Hg; cbn.
    rewrite Hm; cbn. rewrite Hprops; cbn. rewrite Hver; cbn. rewrite Hwo; cbn.
    unfold stopped. by rewrite <- app_assoc.
Qed.

(** X5: a Read whose fetch succeeds returns no error and projects the
    parsed identifier and the fetched properties into [d]: [name] is the
    credential name, [job_agent_id] the parent's formatted identifier,
    [username] the fetched one (left alone when the response has no model
    or no properties), [password_wo_version] reads as before; the stored
    id, every other field, the change flags and the raw configuration are
    untouched. *)
Theorem Read_projects_remote (w : World R) (id : CredentialId.t)
    (resp : GetOperationResponse) (r : R) :
  ParseCredentialID (rd_id (data w)) = Ok id ->
  client_Get id (remote w) = (resp, None, r) ->
  exists d',
    resourceMsSqlJobCredentialRead w =
      (Ok tt, mkWorld d' r (trace w ++ [CallGet id])) /\
    rd_id d' = rd_id (data w) /\
    rd_changed d' = rd_changed (data w) /\
    rd_raw_config d' = rd_raw_config (data w) /\
    d_GetString d' "name" = CredentialId.CredentialName id /\
    d_GetString d' "job_agent_id" =
      JobAgentId.ID
        (NewJobAgentID (CredentialId.SubscriptionId id)
           (CredentialId.ResourceGroupName id) (CredentialId.ServerName id)
           (CredentialId.JobAgentName id)) /\
    d_GetString d' "username" =
      match Model resp ≫= Properties with
      | Some props => Username props
      | None => d_GetString (data w) "username"
      end /\
    d_GetInt d' "password_wo_version" =
      d_GetInt (data w) "password_wo_version" /\
    forall key,
      key ∉ ["name"; "job_agent_id"; "username"; "password_wo_version"] ->
      rd_fields d' !! key = rd_fields (data w) !! key.
Proof.
  intros Hp Hg. unfold_ops; cbn. rewrite Hp; cbn. rewrite Hg; cbn.
  destruct (Model resp) as [[? ? [props|] ?]|]; cbn.
  all: eexists; split; [reflexivity |]; unfold d_GetString, d_GetInt; cbn.
  all: repeat split.
  all: try by rewrite ?lookup_insert_ne, ?lookup_insert_eq by done.
  all: try (rewrite lookup_insert_eq; rewrite ?lookup_insert_ne by done;
            by destruct (rd_fields (data w) !! "password_wo_version") as [[]|]).
  all: intros key Hkey; rewrite !lookup_insert_ne; [done | ..].
  all: intros ?; subst key; apply Hkey; set_solver.
Qed.

(** X6: Read is idempotent on the local state: when the service gives the
    same successful answer again, a second Read changes nothing of [d]. *)
Theorem Read_idempotent (w : World R) (id : CredentialId.t)
    (resp : GetOperationResponse) (r r' : R) :
  ParseCredentialID (rd_id (data w)) = Ok id ->
  client_Get id (remote w) = (resp, None, r) ->
  client_Get id r = (resp, None, r') ->
  exists w1,
    resourceMsSqlJobCredentialRead w = (Ok tt, w1) /\
    resourceMsSqlJobCredentialRead w1 =
      (Ok tt, mkWorld (data w1) r' (trace w1 ++ [CallGet id])).
Proof.
  intros Hp Hg Hg'. unfold_ops; cbn. rewrite Hp; cbn. rewrite Hg; cbn.
  destruct (Model resp) as [[? ? [props|] ?]|] eqn:Hm; cbn.
  all: eexists; split; [reflexivity |]; cbn.
  all: rewrite Hp; cbn; rewrite Hg'; cbn; rewrite Hm; cbn.
  all: do 2 f_equal; unfold d_Set, d_GetInt; cbn; f_equal.
  all: apply map_eq; intros key; rewrite !lookup_insert.
  all: by repeat case_decide.
Qed.

(** X7: Read and the identifier construction of Create and Update agree:
    after a Read whose fetch succeeded, when the parser reads the parent's
    formatted identifier back, the identifier built from [job_agent_id]
    and [name] of the refreshed [d] is the one Read parsed from the stored
    id. *)
Theorem Read_then_identifier (w w' : World R) (id : CredentialId.t)
    (resp : GetOperationResponse) (r : R) :
  ParseCredentialID (rd_id (data w)) = Ok id ->
  client_Get id (remote w) = (resp, None, r) ->
  resourceMsSqlJobCredentialRead w = (Ok tt, w') ->
  let jobAgentId :=
    NewJobAgentID (CredentialId.SubscriptionId id)
      (CredentialId.ResourceGroupName id) (CredentialId.ServerName id)
      (CredentialId.JobAgentName id) in
  ParseJobAgentID (JobAgentId.ID jobAgentId) = Ok jobAgentId ->
  ParseJobAgentID (d_GetString (data w') "job_agent_id") = Ok jobAgentId /\
  jobCredentialId jobAgentId (data w') = id.
Proof.
  intros Hp Hg. unfold_ops; cbn. rewrite Hp; cbn. rewrite Hg; cbn.
  destruct (Model resp) as [[? ? [props|] ?]|]; cbn.
  all: intros [= <-] Hja; cbn.
  all: unfold jobCredentialId, d_GetString; cbn.
  all: repeat first [rewrite lookup_insert_ne by done | rewrite lookup_insert_eq].
  all: by destruct id.
Qed.

(** X9: what Create returns when the fetch of its final Read fails right
    after a successful write (the parser reading the new id back): on a
    not-found response Create returns no error and leaves the id empty; on
    any other failure it returns the wrapped failure with the new id
    recorded in [d]. *)
Theorem Create_final_Read_failure (w : World R) (jaId : JobAgentId.t)
    (existing : GetOperationResponse) (err : option error) (r : R)
    (woPassword : cty.Value) (r1 : R) (resp : GetOperationResponse)
    (e : error) (r2 : R) :
  ParseJobAgentID (d_GetString (data w) "job_agent_id") = Ok jaId ->
  let id := jobCredentialId jaId (data w) in
  client_Get id (remote w) = (existing, err, r) ->
  WasNotFound (HttpResponse existing) = true ->
  pluginsdk_GetWriteOnly (data w) "password_wo" cty.String = Ok woPassword ->
  let jobCredential :=
    {| Id := None;
       Name := Some (CredentialId.CredentialName id);
       Properties :=
         Some {| Password := if cty.IsNull woPassword
                             then d_GetString (data w) "password"
                             else cty.AsString woPassword;
                 Username := d_GetString (data w) "username" |};
       Type_ := None |} in
  client_CreateOrUpdate id jobCredential r = (None, r1) ->
  ParseCredentialID (CredentialId.ID id) = Ok id ->
  client_Get id r1 = (resp, Some e, r2) ->
  let issued :=
    trace w ++ [CallGet id; ReadWriteOnly "password_wo";
                CallCreateOrUpdate id jobCredential; CallGet id] in
  resourceMsSqlJobCredentialCreate w =
    if WasNotFound (HttpResponse resp)
    then (Ok tt, mkWorld (d_SetId (data w) "") r2 issued)
    else (Err (fmt_Errorf "reading %s: %s" id e),
          mkWorld (d_SetId (data w) (CredentialId.ID id)) r2 issued).
Proof.
  intros Hp id Hg Hnf Hwo jobCredential Hsend Hback Hg' issued.
  unfold_ops; cbn. rewrite Hp; cbn.
  fold (jobCredentialId jaId (data w)). fold id. rewrite Hg; cbn.
  assert (Hpayload :
    {| Id := None; Name := Some (d_GetString (data w) "name");
       Properties :=
         Some {| Password := if negb (cty.IsNull woPassword)
                             then cty.AsString woPassword
                             else d_GetString (data w) "password";
                 Username := d_GetString (data w) "username" |};
       Type_ := None |} = jobCredential).
  { unfold jobCredential. by destruct (cty.IsNull woPassword). }
  destruct err; cbn; rewrite Hnf; cbn; rewrite Hwo; cbn.
  all: rewrite Hpayload, Hsend; cbn; rewrite Hback; cbn; rewrite Hg'; cbn.
  all: unfold issued; rewrite <- !app_assoc; cbn.
  all: by destruct (WasNotFound (HttpResponse resp)).
Qed.

(** Read issues at most its one Get. *)
Lemma Read_calls (w w' : World R) (res : result unit) :
  resourceMsSqlJobCredentialRead w = (res, w') ->
  trace w' = trace w \/ exists id, trace w' = trace w ++ [CallGet id].
Proof.
  unfold_ops; cbn.
  destruct (ParseCredentialID _) as [id|e]; cbn; [| intros [= <- <-]; by left].
  destruct (client_Get id (remote w)) as [[resp [e|]] r]; cbn.
  - destruct (WasNotFound _); cbn; intros [= <- <-]; cbn; by eauto.
  - destruct (Model resp) as [[? ? [props|] ?]|]; cbn; intros [= <- <-]; cbn;
      by eauto.
Qed.

(** X8: the calls an operation can issue.  Read issues at most one Get and
    nothing else; Delete at most one Delete and nothing else, and it never
    changes [d]; Create and Update never issue a Delete, send at most one
    payload, fetch at most twice, consult the write-only attribute at most
    once, and change [d] only if they sent a payload. *)
Theorem call_discipline (op : Operation) (w w' : World R) (res : result unit) :
  resourceMsSqlJobCredential op w = (res, w') ->
  exists new,
    trace w' = trace w ++ new /\
    match op with
    | OpRead =>
        sent new = [] /\ deleted new = [] /\ consulted new = [] /\
        (length (fetched new) <= 1)%nat
    | OpDelete =>
        data w' = data w /\
        sent new = [] /\ fetched new = [] /\ consulted new = [] /\
        (length (deleted new) <= 1)%nat
    | OpCreate | OpUpdate =>
        deleted new = [] /\
        (length (sent new) <= 1)%nat /\
        (length (fetched new) <= 2)%nat /\
        (length (consulted new) <= 1)%nat /\
        (sent new = [] -> data w' = data w)
    end.
Proof.
  assert (Htail : forall (v v' : World R) (res' : result unit)
            (pre : list Event) (P : list Event -> Prop),
            resourceMsSqlJobCredentialRead v = (res', v') ->
            trace v = trace w ++ pre ->
            P pre -> (forall i, P (pre ++ [CallGet i])) ->
            exists new, trace v' = trace w ++ new /\ P new).
  { intros v v' res' pre P [-> | [i ->]]%Read_calls -> Hpre Hget.
    - by exists pre.
    - exists (pre ++ [CallGet i]). by rewrite <- app_assoc. }
  destruct op; cbn [resourceMsSqlJobCredential].
  - (* Create *)
    unfold_ops_but_Read; cbn.
    destruct (ParseJobAgentID _) as [jaId|e]; cbn; [| stops].
    destruct (client_Get _ (remote w)) as [[existing err] r]; cbn.
    destruct (WasNotFound _), err as [cause|]; cbn; try stops.
    all: destruct (pluginsdk_GetWriteOnly _ _ _) as [wo|e]; cbn; [| stops].
    all: destruct (client_CreateOrUpdate _ _ _) as [[e|] r2]; cbn; [stops |].
    all: reads Htail.
  - (* Read *)
    intros [-> | [i ->]]%Read_calls.
    + exists []. split; [by rewrite app_nil_r |]. cbn. repeat split; (done || lia).
    + eexists. split; [reflexivity |]. cbn. repeat split; (done || lia).
  - (* Update *)
    unfold_ops_but_Read; cbn.
    destruct (ParseJobAgentID _) as [jaId|e]; cbn; [| stops].
    destruct (client_Get _ (remote w)) as [[existing [cause|]] r]; cbn;
      [stops |].
    destruct (Model existing) as [[? ? [props|] ?]|]; cbn; try stops.
    destruct (d_HasChange (data w) "password_wo_version"); cbn.
    + destruct (pluginsdk_GetWriteOnly _ _ _) as [wo|e]; cbn; [| stops].
      destruct (client_CreateOrUpdate _ _ _) as [[e|] r2]; cbn; [stops |].
      reads Htail.
    + destruct (client_CreateOrUpdate _ _ _) as [[e|] r2]; cbn; [stops |].
      reads Htail.
  - (* Delete *)
    unfold_ops; cbn.
    destruct (ParseCredentialID _) as [id|e]; cbn; [| stops].
    destruct (client_Delete id (remote w)) as [[e|] r]; cbn; stops.
Qed.

End Channels.

Section StoredObject.
Context {R : Type} `{!JobCredentialsClient R} `{!IdParser}.
Context (stored : R -> CredentialId.t -> option JobCredential).
Context `{!LawfulStore stored}.

(** X10: over a lawful store, after a Create that succeeded the service
    holds, under the constructed identifier, a credential with the
    supplied username and the effective password (the write-only value
    unless it is null, the plain [password] otherwise). *)
Theorem Create_stores_credential (w w' : World R) (jaId : JobAgentId.t)
    (woPassword : cty.Value) :
  resourceMsSqlJobCredentialCreate w = (Ok tt, w') ->
  ParseJobAgentID (d_GetString (data w) "job_agent_id") = Ok jaId ->
  pluginsdk_GetWriteOnly (data w) "password_wo" cty.String = Ok woPassword ->
  let id := jobCredentialId jaId (data w) in
  stored (remote w') id =
    Some {| Id := None;
            Name := Some (CredentialId.CredentialName id);
            Properties :=
              Some {| Password := if cty.IsNull woPassword
                                  then d_GetString (data w) "password"
                                  else cty.AsString woPassword;
                      Username := d_GetString (data w) "username" |};
            Type_ := None |}.
Proof.
  intros HC Hp Hwo id. revert HC. unfold_ops_but_Read; cbn. rewrite Hp; cbn.
  fold (jobCredentialId jaId (data w)). fold id.
  destruct (client_Get id (remote w)) as [[existing err] r]; cbn.
  destruct (WasNotFound _), err as [cause|]; cbn; try done.
  all: rewrite Hwo; cbn.
  all: destruct (client_CreateOrUpdate _ _ _) as [[e|] r2] eqn:Hsend; cbn;
    [done |].
  all: intros Hread; rewrite (Read_stored stored _ _ _ Hread); cbn.
  all: rewrite (CreateOrUpdate_upserts _ _ _ _ Hsend), decide_True by done.
  all: by destruct (cty.IsNull woPassword).
Qed.

(** X11: over a lawful store, after an Update that succeeded with
    [username] flagged as changed the service holds, under the constructed
    identifier, a credential whose username is the new [username] value. *)
Theorem Update_stores_username (w w' : World R) (jaId : JobAgentId.t) :
  resourceMsSqlJobCredentialUpdate w = (Ok tt, w') ->
  ParseJobAgentID (d_GetString (data w) "job_agent_id") = Ok jaId ->
  d_HasChange (data w) "username" = true ->
  exists model props,
    stored (remote w') (jobCredentialId jaId (data w)) = Some model /\
    Properties model = Some props /\
    Username props = d_GetString (data w) "username".
Proof.
  intros HU Hp Hun. revert HU. unfold_ops_but_Read; cbn. rewrite Hp; cbn.
  fold (jobCredentialId jaId (data w)). set (id := jobCredentialId _ _).
  destruct (client_Get id (remote w)) as [[existing [cause|]] r]; cbn;
    [done |].
  destruct (Model existing) as [[? ? [props|] ?]|]; cbn; try done.
  rewrite Hun; cbn.
  assert (Hheld : forall v payload sentProps r2,
    client_CreateOrUpdate id payload r = (None, r2) ->
    resourceMsSqlJobCredentialRead v = (Ok tt, w') ->
    remote v = r2 ->
    Properties payload = Some sentProps ->
    Username sentProps = d_GetString (data w) "username" ->
    exists model props0,
      stored (remote w') id = Some model /\ Properties model = Some props0 /\
      Username props0 = d_GetString (data w) "username").
  { intros v payload sentProps r2 Hsend Hread <- Hsent Hname.
    exists payload, sentProps. split; [| done].
    rewrite (Read_stored stored _ _ _ Hread).
    by rewrite (CreateOrUpdate_upserts _ _ _ _ Hsend), decide_True. }
  destruct (d_HasChange (data w) "password_wo_version"); cbn.
  - destruct (pluginsdk_GetWriteOnly _ _ _) as [wo|e]; cbn; [| done].
    destruct (client_CreateOrUpdate _ _ _) as [[e|] r2] eqn:Hsend; cbn;
      [done |].
    intros Hread. eapply (Hheld _ _ _ _ Hsend Hread); [done | done |].
    by destruct (cty.IsNull wo), (d_HasChange _ "password").
  - destruct (client_CreateOrUpdate _ _ _) as [[e|] r2] eqn:Hsend; cbn;
      [done |].
    intros Hread. eapply (Hheld _ _ _ _ Hsend Hread); [done | done |].
    by destruct (d_HasChange _ "password").
Qed.

End StoredObject.

(** X12: what the schema lets through.  A configuration passes the
    constraints of the resource's schema exactly when it sets [name],
    [job_agent_id] and [username], sets one and only one of [password] and
    [password_wo], and sets [password_wo_version] if and only if it sets
    [password_wo]. *)
Theorem schema_constraints (cfg : gset string) :
  schema.validate schema.resourceMsSqlJobCredential cfg = true <->
  "name" ∈ cfg /\ "job_agent_id" ∈ cfg /\ "username" ∈ cfg /\
  ("password" ∈ cfg <-> "password_wo" ∉ cfg) /\
  ("password_wo_version" ∈ cfg <-> "password_wo" ∈ cfg).
Proof.
  unfold schema.validate. rewrite bool_decide_eq_true, map_Forall_lookup.
  unfold schema.validate_field, schema.is_set.
  split.
  - intros Hall.
    pose proof (Hall "name" _ eq_refl) as Hname.
    pose proof (Hall "job_agent_id" _ eq_refl) as Hja.
    pose proof (Hall "username" _ eq_refl) as Hun.
    pose proof (Hall "password" _ eq_refl) as Hpw.
    pose proof (Hall "password_wo" _ eq_refl) as Hwo.
    pose proof (Hall "password_wo_version" _ eq_refl) as Hver.
    clear Hall. cbn in *. revert Hname Hja Hun Hpw Hwo Hver.
    destruct (bool_decide ("name" ∈ cfg)) eqn:E1,
      (bool_decide ("job_agent_id" ∈ cfg)) eqn:E2,
      (bool_decide ("username" ∈ cfg)) eqn:E3,
      (bool_decide ("password" ∈ cfg)) eqn:E4,
      (bool_decide ("password_wo" ∈ cfg)) eqn:E5,
      (bool_decide ("password_wo_version" ∈ cfg)) eqn:E6; cbn; try done.
    all: intros _ _ _ _ _ _.
    all: repeat match goal with
         | E : bool_decide _ = true |- _ => apply bool_decide_eq_true in E
         | E : bool_decide _ = false |- _ => apply bool_decide_eq_false in E
         end.
    all: by repeat split.
  - intros (Hname & Hja & Hun & Hone & Hver) key s Hkey.
    assert (Hwo : bool_decide ("password" ∈ cfg) =
                  negb (bool_decide ("password_wo" ∈ cfg))).
    { destruct (decide ("password_wo" ∈ cfg)) as [H2|H2].
      - rewrite (bool_decide_eq_true_2 _ H2); cbn.
        apply bool_decide_eq_false_2. intros H1%Hone. done.
      - rewrite (bool_decide_eq_false_2 _ H2); cbn.
        apply bool_decide_eq_true_2. by apply Hone. }
    assert (Hv : bool_decide ("password_wo_version" ∈ cfg) =
                 bool_decide ("password_wo" ∈ cfg)).
    { by apply bool_decide_ext. }
    unfold schema.resourceMsSqlJobCredential in Hkey.
    repeat (rewrite lookup_insert in Hkey; case_decide;
            [subst key; injection Hkey as <-; cbn;
             rewrite ?(bool_decide_eq_true_2 _ Hname),
               ?(bool_decide_eq_true_2 _ Hja), ?(bool_decide_eq_true_2 _ Hun),
               ?Hv, ?Hwo;
             by destruct (bool_decide ("password_wo" ∈ cfg)) |]).
    rewrite lookup_singleton in Hkey. case_decide; [| done].
    subst key. injection Hkey as <-. cbn. rewrite Hv.
    by destruct (bool_decide ("password_wo" ∈ cfg)).
Qed.

(** ** The reference instance meets the laws *)

Section ReferenceInstance.

Lemma split_nonempty (s : string) : resourceids.split s <> [].
Proof.
  destruct s as [|c s]; cbn; [done |].
  destruct (Ascii.eqb c "/"); [done |].
  by destruct (resourceids.split s).
Qed.

Lemma split_app (a b : string) :
  resourceids.split (a +:+ String "/" b) =
  resourceids.split a ++ resourceids.split b.
Proof.
  induction a as [|c a IH]; simpl; [done |].
  destruct (Ascii.eqb c "/"); [by rewrite IH |].
  rewrite IH. pose proof (split_nonempty a).
  by destruct (resourceids.split a).
Qed.

Lemma join_split (s : string) : resourceids.join (resourceids.split s) = s.
Proof.
  induction s as [|c s IH]; cbn; [done |].
  pose proof (split_nonempty s) as Hne.
  destruct (Ascii.eqb c "/") eqn:Hc.
  - apply Ascii.eqb_eq in Hc as ->.
    destruct (resourceids.split s) as [|seg rest]; [done |].
    cbn in *. by rewrite IH.
  - destruct (resourceids.split s) as [|seg [|seg' rest]]; [done | ..];
      cbn in *; by rewrite <- IH.
Qed.

Lemma split_singleton (s seg : string) : resourceids.split s = [seg] -> seg = s.
Proof. intros Hs. by rewrite <- (join_split s), Hs. Qed.

(** What the credential parser accepts is cut into exactly the thirteen
    segments of the path. *)
Lemma ParseCredentialID_segments (input : string) (id : CredentialId.t) :
  resourceids.ParseCredentialID input = Ok id ->
  resourceids.split input =
    [""; "subscriptions"; CredentialId.SubscriptionId id;
     "resourceGroups"; CredentialId.ResourceGroupName id;
     "providers"; "Microsoft.Sql"; "servers"; CredentialId.ServerName id;
     "jobAgents"; CredentialId.JobAgentName id;
     "credentials"; CredentialId.CredentialName id].
Proof.
  unfold resourceids.ParseCredentialID.
  destruct (resourceids.split input)
    as [|e [|k1 [|sub [|k2 [|rg [|k3 [|k4 [|k5 [|srv [|k6 [|ja [|k7
        [|cred [|? ?]]]]]]]]]]]]]]; try done.
  destruct (_ && _) eqn:Hok; [| done].
  apply andb_prop in Hok as [Hfixed _].
  apply bool_decide_eq_true in Hfixed.
  injection Hfixed as -> -> -> -> -> -> -> ->.
  by intros [= <-].
Qed.

#[global] Instance resourceids_canonical : @CanonicalIds resourceids.parser.
Proof.
  split.
  - intros [sub rg srv ja cred] id' Hparse.
    apply ParseCredentialID_segments in Hparse.
    change (CredentialId.ID (CredentialId.mk sub rg srv ja cred)) with
      ("" +:+ String "/" ("subscriptions" +:+ String "/" (sub +:+ String "/"
       ("resourceGroups" +:+ String "/" (rg +:+ String "/"
       ("providers" +:+ String "/" ("Microsoft.Sql" +:+ String "/"
       ("servers" +:+ String "/" (srv +:+ String "/"
       ("jobAgents" +:+ String "/" (ja +:+ String "/"
       ("credentials" +:+ String "/" cred)))))))))))) in Hparse.
    rewrite !split_app in Hparse.
    pose proof (split_nonempty sub) as H1.
    pose proof (split_nonempty rg) as H2.
    pose proof (split_nonempty srv) as H3.
    pose proof (split_nonempty ja) as H4.
    pose proof (split_nonempty cred) as H5.
    pose proof (split_singleton sub) as S1.
    pose proof (split_singleton rg) as S2.
    pose proof (split_singleton srv) as S3.
    pose proof (split_singleton ja) as S4.
    pose proof (split_singleton cred) as S5.
    pose proof (f_equal length Hparse) as Hlen.
    destruct (resourceids.split sub) as [|z1 l1]; [done |].
    destruct (resourceids.split rg) as [|z2 l2]; [done |].
    destruct (resourceids.split srv) as [|z3 l3]; [done |].
    destruct (resourceids.split ja) as [|z4 l4]; [done |].
    destruct (resourceids.split cred) as [|z5 l5]; [done |].
    repeat (cbn in Hlen; rewrite length_app in Hlen). cbn in Hlen.
    destruct l1; [| cbn in Hlen; lia].
    destruct l2; [| cbn in Hlen; lia].
    destruct l3; [| cbn in Hlen; lia].
    destruct l4; [| cbn in Hlen; lia].
    destruct l5; [| cbn in Hlen; lia].
    cbn in Hparse. destruct id'; cbn in Hparse.
    injection Hparse as -> -> -> -> ->.
    by rewrite (S1 _ eq_refl), (S2 _ eq_refl), (S3 _ eq_refl),
      (S4 _ eq_refl), (S5 _ eq_refl).
  - done.
Qed.

(** The objects the reference store holds. *)
#[global] Instance memstore_lawful :
  @LawfulStore memstore.t memstore.client sample.stored.
Proof.
  split.
  - intros id [objs outs] resp err r'; unfold sample.stored; cbn.
    unfold memstore.Get, memstore.next_outage; cbn.
    destruct outs as [|[status|] rest]; cbn.
    2: by intros [= <- <- <-].
    all: destruct (objs !! id) eqn:Hobj; cbn; by intros [= <- <- <-].
  - intros id input [objs outs] r'; unfold sample.stored; cbn.
    unfold memstore.CreateOrUpdate, memstore.next_outage; cbn.
    destruct outs as [|[status|] rest]; cbn; intros [= <-] id'; cbn.
    all: rewrite lookup_insert; by repeat case_decide.
  - intros id input [objs outs] e r'; unfold sample.stored; cbn.
    unfold memstore.CreateOrUpdate, memstore.next_outage; cbn.
    by destruct outs as [|[status|] rest]; cbn; intros [= <- <-].
Qed.

End ReferenceInstance.

(** ** The properties at the sample worlds *)


(** Read of a resource whose remote object is gone clears the id. *)
Lemma Read_fetch_failure_witness :
  sample.Read sample.gone =
    (Ok tt,
     mkWorld (d_SetId (data sample.gone) "") sample.absent
       [CallGet sample.credential]).
Proof.
  refine (@Read_fetch_failure _ memstore.client resourceids.parser
            sample.gone sample.credential sample.not_found
            memstore.unexpected_status sample.absent _ _).
  - vm_compute. reflexivity.
  - vm_compute. reflexivity.
Defined.

(** Delete of a resource whose remote object is gone fails. *)
Lemma Delete_failure_is_fatal_witness :
  sample.Delete sample.gone =
    (Err (fmt_Errorf "deleting %s: %+v" sample.credential
            memstore.unexpected_status),
     mkWorld (data sample.gone) sample.absent [CallDelete sample.credential]).
Proof.
  refine (proj1 (@Delete_failure_is_fatal _ memstore.client resourceids.parser
                   sample.gone sample.credential _)
            memstore.unexpected_status sample.absent _).
  - vm_compute. reflexivity.
  - vm_compute. reflexivity.
Defined.

(** Update of a resource whose remote object is gone fails at the fetch. *)
Lemma Update_fetch_must_succeed_witness :
  exists e,
    sample.Update sample.gone =
      (Err e,
       mkWorld (data sample.gone) sample.absent [CallGet sample.credential]) /\
    e = fmt_Errorf "retrieving %s: %+v" sample.credential
          memstore.unexpected_status.
Proof.
  refine (@Update_fetch_must_succeed _ memstore.client resourceids.parser
            sample.gone sample.jobAgent sample.not_found
            (Some memstore.unexpected_status) sample.absent _ _ _).
  - vm_compute. reflexivity.
  - vm_compute. reflexivity.
  - left. eexists. reflexivity.
Defined.

(** Create over a credential the service holds, over a failing service,
    and over a free identifier. *)
Lemma Create_existence_check_witness :
  sample.Create sample.taken =
    (Err (ImportAsExistsError "azurerm_mssql_job_credential"
            (CredentialId.ID sample.credential)),
     mkWorld (data sample.taken) sample.present [CallGet sample.credential]) /\
  sample.Create sample.outage =
    (Err (fmt_Errorf "checking for presence of existing %s: %+v"
            sample.credential memstore.unexpected_status),
     mkWorld (data sample.outage) sample.present [CallGet sample.credential]) /\
  exists res w' rest,
    sample.Create sample.fresh = (res, w') /\
    trace w' = [CallGet sample.credential] ++ ReadWriteOnly "password_wo" :: rest.
Proof.
  split; [| split].
  - refine (@Create_existence_check _ memstore.client resourceids.parser
              sample.taken sample.jobAgent sample.found None sample.present
              _ _).
    + vm_compute. reflexivity.
    + vm_compute. reflexivity.
  - refine (@Create_existence_check _ memstore.client resourceids.parser
              sample.outage sample.jobAgent sample.server_error
              (Some memstore.unexpected_status) sample.present _ _).
    + vm_compute. reflexivity.
    + vm_compute. reflexivity.
  - refine (@Create_existence_check _ memstore.client resourceids.parser
              sample.fresh sample.jobAgent sample.not_found
              (Some memstore.unexpected_status) sample.absent _ _).
    + vm_compute. reflexivity.
    + vm_compute. reflexivity.
Defined.

(** Create with the plain password and with the write-only password. *)
Lemma Create_sends_effective_password_witness :
  let sends (password : string) : JobCredential :=
    {| Id := None; Name := Some "cred1";
       Properties := Some {| Password := password; Username := "sa" |};
       Type_ := None |} in
  let then_reads (w : World memstore.t) (password : string) :=
    sample.Read
      (mkWorld (d_SetId (data w) (CredentialId.ID sample.credential))
         (sample.holding (sends password))
         [CallGet sample.credential; ReadWriteOnly "password_wo";
          CallCreateOrUpdate sample.credential (sends password)]) in
  sample.Create sample.fresh = then_reads sample.fresh "pw" /\
  sample.Create sample.fresh_wo = then_reads sample.fresh_wo "secret".
Proof.
  split.
  - refine (@Create_sends_effective_password _ memstore.client
              resourceids.parser sample.fresh sample.jobAgent sample.not_found
              (Some memstore.unexpected_status) sample.absent
              (cty.NullVal cty.String) None _ _ _ _ _ _).
    all: vm_compute; reflexivity.
  - refine (@Create_sends_effective_password _ memstore.client
              resourceids.parser sample.fresh_wo sample.jobAgent
              sample.not_found (Some memstore.unexpected_status) sample.absent
              (cty.StringVal "secret") None _ _ _ _ _ _).
    all: vm_compute; reflexivity.
Defined.

(** A new version of a write-only password equal to the one applied before
    is sent once; an update of the username alone consults nothing. *)
Lemma Update_write_only_channel_witness :
  (exists new,
     sent (trace (sample.Update sample.rotate).2) = new /\
     length new = 1%nat /\
     forall id input,
       (id, input) ∈ new -> sent_password input = Some "old-secret") /\
  consulted (trace (sample.Update sample.rename).2) = [].
Proof.
  split.
  - destruct (@Update_write_only_channel _ memstore.client resourceids.parser
                sample.rotate (sample.Update sample.rotate).2
                (sample.Update sample.rotate).1) as [Hflagged _].
    { vm_compute. reflexivity. }
    destruct (Hflagged eq_refl (cty.StringVal "old-secret") eq_refl eq_refl)
      as (new & Hsent & _ & Hcarried & Hone).
    exists new. split; [exact Hsent | split; [| exact Hcarried]].
    apply (Hone sample.jobAgent sample.found sample.present sample.held
             {| Password := "old-secret"; Username := "sa" |}).
    all: vm_compute; reflexivity.
  - destruct (@Update_write_only_channel _ memstore.client resourceids.parser
                sample.rename (sample.Update sample.rename).2
                (sample.Update sample.rename).1) as [_ Hplain].
    { vm_compute. reflexivity. }
    destruct (Hplain eq_refl) as [Hconsulted _]. exact Hconsulted.
Defined.

(** A flagged version marker without a write-only value: the fetched
    password is sent back, or the plain one where it is flagged too. *)
Lemma Update_null_write_only_witness :
  let payload (password : string) : JobCredential :=
    {| Id := Some (CredentialId.ID sample.credential); Name := Some "cred1";
       Properties := Some {| Password := password; Username := "sa" |};
       Type_ := Some "Microsoft.Sql/servers/jobAgents/credentials" |} in
  let then_reads (w : World memstore.t) (password : string) :=
    sample.Read
      (mkWorld (data w) (sample.holding (payload password))
         [CallGet sample.credential; ReadWriteOnly "password_wo";
          CallCreateOrUpdate sample.credential (payload password)]) in
  sample.Update sample.unset = then_reads sample.unset "old-secret" /\
  sample.Update sample.switch = then_reads sample.switch "new-secret".
Proof.
  split.
  - refine (@Update_null_write_only _ memstore.client resourceids.parser
              sample.unset sample.jobAgent sample.found sample.present
              sample.held {| Password := "old-secret"; Username := "sa" |}
              (cty.NullVal cty.String) None _ _ _ _ _ _ _ _ _).
    all: vm_compute; reflexivity.
  - refine (@Update_null_write_only _ memstore.client resourceids.parser
              sample.switch sample.jobAgent sample.found sample.present
              sample.held {| Password := "old-secret"; Username := "sa" |}
              (cty.NullVal cty.String) None _ _ _ _ _ _ _ _ _).
    all: vm_compute; reflexivity.
Defined.

(** Against C10 read as "the payload carries the fetched password": the
    update [sample.switch] flags [password_wo_version] (and [password]),
    its write-only value is null, its fetch returns the password
    ["old-secret"], it succeeds, and the one payload it sends carries the
    plain password ["new-secret"]. *)
Lemma plain_password_overrides_fetched_one :
  d_HasChange (data sample.switch) "password_wo_version" = true /\
  pluginsdk_GetWriteOnly (data sample.switch) "password_wo" cty.String =
    Ok (cty.NullVal cty.String) /\
  memstore.Get sample.credential (remote sample.switch) =
    (sample.found, None, sample.present) /\
  sent_password sample.held = Some "old-secret" /\
  (sample.Update sample.switch).1 = Ok tt /\
  (sent_password ∘ snd) <$> sent (trace (sample.Update sample.switch).2) =
    [Some "new-secret"] /\
  String.eqb "new-secret" "old-secret" = false.
Proof. vm_compute. repeat split. Qed.



(** ** The further properties at sample worlds *)

(** A new plain password replaces the held one. *)
Lemma Update_plain_password_witness :
  let payload : JobCredential :=
    {| Id := Some (CredentialId.ID sample.credential); Name := Some "cred1";
       Properties := Some {| Password := "new-secret"; Username := "sa" |};
       Type_ := Some "Microsoft.Sql/servers/jobAgents/credentials" |} in
  sample.Update scenario.replace =
    sample.Read
      (mkWorld (data scenario.replace) (sample.holding payload)
         [CallGet sample.credential;
          CallCreateOrUpdate sample.credential payload]).
Proof.
  refine (@Update_plain_password _ memstore.client resourceids.parser
            scenario.replace sample.jobAgent sample.found sample.present
            sample.held {| Password := "old-secret"; Username := "sa" |}
            None _ _ _ _ _ _ _ _).
  all: vm_compute; reflexivity.
Defined.

(** An update with nothing flagged puts the held credential back. *)
Lemma Update_nothing_flagged_witness :
  sample.Update scenario.untouched =
    sample.Read
      (mkWorld (data scenario.untouched) sample.present
         [CallGet sample.credential;
          CallCreateOrUpdate sample.credential sample.held]).
Proof.
  refine (@Update_nothing_flagged _ memstore.client resourceids.parser
            scenario.untouched sample.jobAgent sample.found sample.present
            sample.held {| Password := "old-secret"; Username := "sa" |}
            None _ _ _ _ _ _ _ _ _).
  all: vm_compute; reflexivity.
Defined.

(** The payload of the renaming update is the held credential but for the
    username. *)
Lemma Update_payload_shape_witness :
  exists new,
    sent (trace (sample.Update sample.rename).2) = new /\
    forall id input,
      (id, input) ∈ new ->
      id = sample.credential /\
      exists model props sentProps,
        Model sample.found = Some model /\ Properties model = Some props /\
        Id input = Id model /\ Name input = Name model /\
        Type_ input = Type_ model /\
        Properties input = Some sentProps /\ Username sentProps = "sa2".
Proof.
  refine (@Update_payload_shape _ memstore.client resourceids.parser
            sample.rename (sample.Update sample.rename).2
            (sample.Update sample.rename).1 sample.jobAgent sample.found None
            sample.present _ _ _).
  all: vm_compute; reflexivity.
Defined.

(** A [password_wo] that is not a string stops Create and Update before
    anything is sent. *)
Lemma write_only_failure_aborts_witness :
  let e := errors_New "retrieving write-only attribute from config: value is not of the type asked for" in
  sample.Create scenario.mistyped_fresh =
    (Err e,
     mkWorld (data scenario.mistyped_fresh) sample.absent
       [CallGet sample.credential; ReadWriteOnly "password_wo"]) /\
  sample.Update scenario.mistyped =
    (Err e,
     mkWorld (data scenario.mistyped) sample.present
       [CallGet sample.credential; ReadWriteOnly "password_wo"]).
Proof.
  split.
  - refine (proj1 (@write_only_failure_aborts _ memstore.client
                     resourceids.parser scenario.mistyped_fresh sample.jobAgent
                     sample.not_found (Some memstore.unexpected_status)
                     sample.absent _ _ _ _) _).
    all: vm_compute; reflexivity.
  - refine (proj2 (@write_only_failure_aborts _ memstore.client
                     resourceids.parser scenario.mistyped sample.jobAgent
                     sample.found None sample.present _ _ _ _) _ _ _).
    1-4: vm_compute; reflexivity.
    + by eexists _, _.
    + vm_compute. reflexivity.
Defined.

(** Reading the renamed resource back brings the held username. *)
Lemma Read_projects_remote_witness :
  exists d',
    sample.Read sample.rename =
      (Ok tt, mkWorld d' sample.present [CallGet sample.credential]) /\
    d_GetString d' "name" = "cred1" /\
    d_GetString d' "job_agent_id" = JobAgentId.ID sample.jobAgent /\
    d_GetString d' "username" = "sa" /\
    d_GetInt d' "password_wo_version" = 1.
Proof.
  destruct (@Read_projects_remote _ memstore.client resourceids.parser
              sample.rename sample.credential sample.found sample.present)
    as (d' & Hread & _ & _ & _ & Hname & Hja & Hun & Hver & _).
  - vm_compute. reflexivity.
  - vm_compute. reflexivity.
  - exists d'. repeat split; assumption.
Defined.

(** A second Read of the renamed resource changes nothing more. *)
Lemma Read_idempotent_witness :
  exists w1,
    sample.Read sample.rename = (Ok tt, w1) /\
    sample.Read w1 =
      (Ok tt, mkWorld (data w1) sample.present
                (trace w1 ++ [CallGet sample.credential])).
Proof.
  refine (@Read_idempotent _ memstore.client resourceids.parser
            sample.rename sample.credential sample.found sample.present
            sample.present _ _ _).
  all: vm_compute; reflexivity.
Defined.

(** After a Read, an update addresses the credential Read read. *)
Lemma Read_then_identifier_witness :
  jobCredentialId sample.jobAgent (data (sample.Read sample.rename).2) =
    sample.credential.
Proof.
  refine (proj2 (@Read_then_identifier _ memstore.client resourceids.parser
                   sample.rename (sample.Read sample.rename).2
                   sample.credential sample.found sample.present _ _ _ _)).
  all: vm_compute; reflexivity.
Defined.

(** The calls of a first apply and of a delete of a vanished resource. *)
Lemma call_discipline_witness :
  (exists new,
     trace (sample.Create sample.fresh).2 = new /\
     deleted new = [] /\ (length (sent new) <= 1)%nat) /\
  (exists new,
     trace (sample.Delete sample.gone).2 = new /\
     data (sample.Delete sample.gone).2 = data sample.gone /\
     sent new = [] /\ fetched new = []).
Proof.
  split.
  - destruct (@call_discipline _ memstore.client resourceids.parser OpCreate
                sample.fresh (sample.Create sample.fresh).2
                (sample.Create sample.fresh).1)
      as (new & Htrace & Hdeleted & Hsent & _).
    + vm_compute. reflexivity.
    + exists new. split; [exact Htrace | split; assumption].
  - destruct (@call_discipline _ memstore.client resourceids.parser OpDelete
                sample.gone (sample.Delete sample.gone).2
                (sample.Delete sample.gone).1)
      as (new & Htrace & Hdata & Hsent & Hfetched & _).
    + vm_compute. reflexivity.
    + exists new. split; [exact Htrace | split; [| split]; assumption].
Defined.

(** A fetch that fails right after the write: the id stays recorded on a
    server error, and is cleared (without error) on a not-found. *)
Lemma Create_final_Read_failure_witness :
  let issued :=
    [CallGet sample.credential; ReadWriteOnly "password_wo";
     CallCreateOrUpdate sample.credential scenario.created;
     CallGet sample.credential] in
  sample.Create scenario.failing_after_write =
    (Err (fmt_Errorf "reading %s: %s" sample.credential
            memstore.unexpected_status),
     mkWorld (d_SetId (data scenario.failing_after_write)
                (CredentialId.ID sample.credential))
       (sample.holding scenario.created) issued) /\
  sample.Create scenario.vanishing_after_write =
    (Ok tt,
     mkWorld (d_SetId (data scenario.vanishing_after_write) "")
       (sample.holding scenario.created) issued).
Proof.
  split.
  - refine (@Create_final_Read_failure _ memstore.client resourceids.parser
              scenario.failing_after_write sample.jobAgent sample.not_found
              (Some memstore.unexpected_status)
              (memstore.mk ∅ [None; Some 500]) (cty.NullVal cty.String)
              (memstore.mk {[ sample.credential := scenario.created ]} [Some 500])
              sample.server_error memstore.unexpected_status
              (sample.holding scenario.created) _ _ _ _ _ _ _).
    all: vm_compute; reflexivity.
  - refine (@Create_final_Read_failure _ memstore.client resourceids.parser
              scenario.vanishing_after_write sample.jobAgent sample.not_found
              (Some memstore.unexpected_status)
              (memstore.mk ∅ [None; Some 404]) (cty.NullVal cty.String)
              (memstore.mk {[ sample.credential := scenario.created ]} [Some 404])
              sample.not_found memstore.unexpected_status
              (sample.holding scenario.created) _ _ _ _ _ _ _).
    all: vm_compute; reflexivity.
Defined.

(** After the first apply with the write-only password the store holds it. *)
Lemma Create_stores_credential_witness :
  sample.stored (remote (sample.Create sample.fresh_wo).2) sample.credential =
    Some {| Id := None; Name := Some "cred1";
            Properties := Some {| Password := "secret"; Username := "sa" |};
            Type_ := None |}.
Proof.
  refine (@Create_stores_credential _ memstore.client resourceids.parser
            sample.stored _ sample.fresh_wo (sample.Create sample.fresh_wo).2
            sample.jobAgent (cty.StringVal "secret") _ _ _).
  all: vm_compute; reflexivity.
Defined.

(** After the renaming update the store holds the new username. *)
Lemma Update_stores_username_witness :
  exists model props,
    sample.stored (remote (sample.Update sample.rename).2) sample.credential =
      Some model /\
    Properties model = Some props /\ Username props = "sa2".
Proof.
  refine (@Update_stores_username _ memstore.client resourceids.parser
            sample.stored _ sample.rename (sample.Update sample.rename).2
            sample.jobAgent _ _ _).
  all: vm_compute; reflexivity.
Defined.

(** A configuration with the write-only password and its version passes. *)
Lemma schema_constraints_witness :
  schema.validate schema.resourceMsSqlJobCredential scenario.write_only_config
    = true.
Proof.
  apply schema_constraints. repeat split; compute_done.
Defined.
